(** * Prime Brief: a shallow embedding of the validation, configuration,
      agent-factory, workflow and download code, with the properties the
      specification states about them.

    Conventions of the embedding.

    - A Python [str] is a Rocq [string]; a character is read as the code
      point of the same number, so the development covers the strings whose
      code points are below 256.  [str.lower], [str.isspace], [str.isalnum]
      and the regex classes [\s] and [\w] are written out for that range as
      CPython defines them.
    - A Python [int] is a [Z]; [len] is [Z.of_nat (String.length _)].
    - [Optional[T]] is [option T].
    - A call that may raise returns an [outcome]. *)

From Stdlib Require Import String Ascii List ZArith Bool Lia DecimalString QArith.
Import ListNotations.
Local Open Scope string_scope.
Local Open Scope Z_scope.

(* ===================================================================== *)
(** ** Python string primitives                                          *)
(* ===================================================================== *)

Module PyStr.

Definition code (c : ascii) : nat := nat_of_ascii c.

Definition in_range (lo hi : nat) (c : ascii) : bool :=
  (Nat.leb lo (code c) && Nat.leb (code c) hi)%bool.

(** [str.isspace] on one character: TAB..CR, FS..US, SPACE, NEL, NBSP. *)
Definition isspace (c : ascii) : bool :=
  (in_range 9 13 c || in_range 28 31 c || Nat.eqb (code c) 32
   || Nat.eqb (code c) 133 || Nat.eqb (code c) 160)%bool.

Definition is_upper_az (c : ascii) : bool := in_range 65 90 c.
Definition is_lower_az (c : ascii) : bool := in_range 97 122 c.
Definition is_digit09 (c : ascii) : bool := in_range 48 57 c.

(** [str.isalnum] on one character (letters, decimal digits, and the
    characters with a numeric value). *)
Definition isalnum (c : ascii) : bool :=
  (is_digit09 c || is_upper_az c || is_lower_az c
   || Nat.eqb (code c) 170 || Nat.eqb (code c) 178 || Nat.eqb (code c) 179
   || Nat.eqb (code c) 181 || Nat.eqb (code c) 185 || Nat.eqb (code c) 186
   || in_range 188 190 c || in_range 192 214 c || in_range 216 246 c
   || in_range 248 255 c)%bool.

(** [str.lower] on one character. *)
Definition lower_char (c : ascii) : ascii :=
  if (is_upper_az c || in_range 192 214 c || in_range 216 222 c)%bool
  then ascii_of_nat (code c + 32) else c.

Fixpoint lower (s : string) : string :=
  match s with
  | EmptyString => EmptyString
  | String c s' => String (lower_char c) (lower s')
  end.

Fixpoint lstrip (s : string) : string :=
  match s with
  | EmptyString => EmptyString
  | String c s' => if isspace c then lstrip s' else s
  end.

Fixpoint rstrip (s : string) : string :=
  match s with
  | EmptyString => EmptyString
  | String c s' =>
      match rstrip s' with
      | EmptyString => if isspace c then EmptyString else String c EmptyString
      | r => String c r
      end
  end.

(** [s.strip()] *)
Definition strip (s : string) : string := rstrip (lstrip s).

(** [len(s)] *)
Definition len (s : string) : Z := Z.of_nat (String.length s).

(** [s[:n]] for a non-negative literal [n]. *)
Fixpoint take (n : nat) (s : string) : string :=
  match n, s with
  | O, _ => EmptyString
  | _, EmptyString => EmptyString
  | S k, String c s' => String c (take k s')
  end.

(** [s.split(sep)] for a one-character separator. *)
Fixpoint split (sep : ascii) (s : string) : list string :=
  match s with
  | EmptyString => [EmptyString]
  | String c s' =>
      if Ascii.eqb c sep then EmptyString :: split sep s'
      else match split sep s' with
           | h :: t => String c h :: t
           | [] => [String c EmptyString]
           end
  end.

(** [s.replace(old, new)]: every non-overlapping occurrence, left to right.
    [skip] counts the characters of an occurrence still to be dropped. *)
Fixpoint replace_from (old new : string) (skip : nat) (s : string) : string :=
  match s with
  | EmptyString => EmptyString
  | String c s' =>
      match skip with
      | S k => replace_from old new k s'
      | O =>
          if String.prefix old s
          then new ++ replace_from old new (String.length old - 1) s'
          else String c (replace_from old new O s')
      end
  end.

Fixpoint intersperse (new : string) (s : string) : string :=
  match s with
  | EmptyString => new
  | String c s' => new ++ String c (intersperse new s')
  end.

Definition replace (s old new : string) : string :=
  match old with
  | EmptyString => intersperse new s
  | _ => replace_from old new O s
  end.

(** [str(n)] for an [int]. *)
Definition str_of_int (n : Z) : string := NilZero.string_of_int (Z.to_int n).

(** A literal [dict] of strings, in source order. *)
Fixpoint dict_get (d : list (string * string)) (k : string) : option string :=
  match d with
  | [] => None
  | (k', v) :: d' => if String.eqb k k' then Some v else dict_get d' k
  end.

End PyStr.

(* ===================================================================== *)
(** ** Regular expressions                                               *)
(* ===================================================================== *)

Module Re.

(** The fragment of [re] syntax the validators use. *)
Inductive regex : Type :=
| Void : regex
| Eps : regex
| Cls : (ascii -> bool) -> regex
| Cat : regex -> regex -> regex
| Alt : regex -> regex -> regex
| Star : regex -> regex.

Definition Plus (r : regex) : regex := Cat r (Star r).

Fixpoint nullable (r : regex) : bool :=
  match r with
  | Void => false
  | Eps => true
  | Cls _ => false
  | Cat a b => nullable a && nullable b
  | Alt a b => nullable a || nullable b
  | Star _ => true
  end.

Fixpoint deriv (c : ascii) (r : regex) : regex :=
  match r with
  | Void => Void
  | Eps => Void
  | Cls p => if p c then Eps else Void
  | Cat a b =>
      if nullable a then Alt (Cat (deriv c a) b) (deriv c b)
      else Cat (deriv c a) b
  | Alt a b => Alt (deriv c a) (deriv c b)
  | Star a => Cat (deriv c a) (Star a)
  end.

(** The whole of [s] is in the language of [r]. *)
Fixpoint accepts (r : regex) (s : string) : bool :=
  match s with
  | EmptyString => nullable r
  | String c s' => accepts (deriv c r) s'
  end.

Definition any : regex := Cls (fun _ => true).
Definition lit (c : ascii) : regex := Cls (Ascii.eqb c).

(** A literal under [re.IGNORECASE]; the pattern character is lower case. *)
Definition lit_i (c : ascii) : regex :=
  Cls (fun x => Ascii.eqb (PyStr.lower_char x) c).

Fixpoint word (mk : ascii -> regex) (w : string) : regex :=
  match w with
  | EmptyString => Eps
  | String c w' => Cat (mk c) (word mk w')
  end.

(** [$]: the end of the string, or just before a newline that ends it. *)
Definition dollar : regex := Alt Eps (lit "010"%char).

(** [re.match(r'^body$', s)] is not [None]. *)
Definition match_anchored (body : regex) (s : string) : bool :=
  accepts (Cat body dollar) s.

(** [re.search(r, s)] is not [None]. *)
Definition search (r : regex) (s : string) : bool :=
  accepts (Cat (Star any) (Cat r (Star any))) s.

(** The declarative reading of a regex, used to take matches apart. *)
Inductive Lang : regex -> string -> Prop :=
| LEps : Lang Eps EmptyString
| LCls p c : p c = true -> Lang (Cls p) (String c EmptyString)
| LCat a b s t : Lang a s -> Lang b t -> Lang (Cat a b) (s ++ t)
| LAltL a b s : Lang a s -> Lang (Alt a b) s
| LAltR a b s : Lang b s -> Lang (Alt a b) s
| LStar0 a : Lang (Star a) EmptyString
| LStarS a s t : Lang a s -> Lang (Star a) t -> Lang (Star a) (s ++ t).

(** Every character class of the regex lies inside [P]. *)
Fixpoint classes_within (P : ascii -> Prop) (r : regex) : Prop :=
  match r with
  | Cls p => forall c, p c = true -> P c
  | Cat a b | Alt a b => classes_within P a /\ classes_within P b
  | Star a => classes_within P a
  | _ => True
  end.

Fixpoint Forall_chars (P : ascii -> Prop) (s : string) : Prop :=
  match s with
  | EmptyString => True
  | String c s' => P c /\ Forall_chars P s'
  end.

End Re.

(* ===================================================================== *)
(** ** Exceptions                                                        *)
(* ===================================================================== *)

(** A raised exception: whether its class derives from [Exception] (and so
    is caught by [except Exception]) and what [str(e)] gives. *)
Record exn : Type := { exn_is_Exception : bool; exn_str : string }.

Inductive outcome (A : Type) : Type :=
| Ok : A -> outcome A
| Raise : exn -> outcome A.
Arguments Ok {A} _.
Arguments Raise {A} _.

Definition IndexError : exn :=
  {| exn_is_Exception := true; exn_str := "list index out of range" |}.

(* ===================================================================== *)
(** ** app/utils/validators.py                                           *)
(* ===================================================================== *)

Module Validators.
Import PyStr Re.

Record ValidationResult : Type := {
  is_valid : bool;
  value : string;
  error : option string
}.

Definition is_az (c : ascii) : bool := (is_lower_az c || is_upper_az c)%bool.

Definition one_of (cs : string) (c : ascii) : bool :=
  existsb (Ascii.eqb c) (list_ascii_of_string cs).

(** [[a-zA-Z0-9._%+-]] *)
Definition local_char (c : ascii) : bool :=
  (is_az c || is_digit09 c || one_of "._%+-" c)%bool.

(** [[a-zA-Z0-9.-]] *)
Definition domain_char (c : ascii) : bool :=
  (is_az c || is_digit09 c || one_of ".-" c)%bool.

(** [[a-zA-Z0-9.-]+\.[a-zA-Z]{2,}] *)
Definition domain_re : regex :=
  Cat (Plus (Cls domain_char))
      (Cat (lit "."%char)
           (Cat (Cls is_az) (Cat (Cls is_az) (Star (Cls is_az))))).

(** [[a-zA-Z0-9._%+-]+@[a-zA-Z0-9.-]+\.[a-zA-Z]{2,}], between [^] and [$]. *)
Definition email_body : regex :=
  Cat (Plus (Cls local_char)) (Cat (lit "@"%char) domain_re).

Definition email_pattern_matches (s : string) : bool :=
  match_anchored email_body s.

Definition common_domains : list (string * string) :=
  [ ("gmial.com", "gmail.com");
    ("gmal.com", "gmail.com");
    ("gamil.com", "gmail.com");
    ("yaho.com", "yahoo.com");
    ("hotmal.com", "hotmail.com") ].

(** [email.split("@")[1]]; [None] stands for the [IndexError]. *)
Definition domain_part (email : string) : option string :=
  nth_error (split "@"%char email) 1.

Definition validate_email (email : string) : outcome ValidationResult :=
  if String.eqb email "" then
    Ok {| is_valid := false; value := "";
          error := Some "Email address is required" |}
  else
    let email := lower (strip email) in
    if negb (email_pattern_matches email) then
      Ok {| is_valid := false; value := email;
            error := Some "Invalid email format. Please enter a valid email address." |}
    else
      match domain_part email with
      | None => Raise IndexError
      | Some domain =>
          match dict_get common_domains domain with
          | Some fixed =>
              let suggested := replace email domain fixed in
              Ok {| is_valid := false; value := email;
                    error := Some ("Did you mean '" ++ suggested ++ "'?") |}
          | None => Ok {| is_valid := true; value := email; error := None |}
          end
      end.

(** [re.sub(r'\s+', ' ', s)]; [in_run] tells that the previous character
    belonged to the whitespace run being replaced. *)
Fixpoint sub_spaces (in_run : bool) (s : string) : string :=
  match s with
  | EmptyString => EmptyString
  | String c s' =>
      if isspace c then
        if in_run then sub_spaces true s'
        else String " "%char (sub_spaces true s')
      else String c (sub_spaces false s')
  end.

(** [\w] *)
Definition word_char (c : ascii) : bool :=
  (isalnum c || Ascii.eqb c "_"%char)%bool.

(** The list [dangerous_patterns], compiled with [re.IGNORECASE]. *)
Definition dangerous_patterns : list regex :=
  [ word lit_i "<script";
    word lit_i "javascript:";
    Cat (word lit_i "on")
        (Cat (Plus (Cls word_char)) (Cat (Star (Cls isspace)) (lit "="%char))) ].

(** The two sanitising steps of [validate_topic]. *)
Definition sanitize_topic (topic : string) : string :=
  sub_spaces false (strip topic).

Definition validate_topic (topic : string) (min_length max_length : Z)
  : ValidationResult :=
  if String.eqb topic "" then
    {| is_valid := false; value := "";
       error := Some "Research topic is required" |}
  else
    let topic := strip topic in
    let topic := sub_spaces false topic in
    if len topic <? min_length then
      {| is_valid := false; value := topic;
         error := Some ("Topic must be at least " ++ str_of_int min_length
                        ++ " characters long") |}
    else if len topic >? max_length then
      {| is_valid := false; value := topic;
         error := Some ("Topic must be less than " ++ str_of_int max_length
                        ++ " characters") |}
    else if existsb (fun pattern => search pattern topic) dangerous_patterns then
      {| is_valid := false; value := topic;
         error := Some "Topic contains invalid characters" |}
    else {| is_valid := true; value := topic; error := None |}.

(** The two f-strings of the length checks. *)
Definition min_length_error (min_length : Z) : string :=
  "Topic must be at least " ++ str_of_int min_length ++ " characters long".

Definition max_length_error (max_length : Z) : string :=
  "Topic must be less than " ++ str_of_int max_length ++ " characters".

(** Shapes of strings, to say what the sanitising achieves. *)
Fixpoint all_chars (p : ascii -> bool) (s : string) : bool :=
  match s with
  | EmptyString => true
  | String c s' => p c && all_chars p s'
  end.

Definition starts_with_space (s : string) : bool :=
  match s with
  | EmptyString => false
  | String c _ => isspace c
  end.

Fixpoint last_char (s : string) : option ascii :=
  match s with
  | EmptyString => None
  | String c s' =>
      match last_char s' with
      | None => Some c
      | Some x => Some x
      end
  end.

Definition ends_with_space (s : string) : bool :=
  match last_char s with
  | Some c => isspace c
  | None => false
  end.

Fixpoint has_space_run (s : string) : bool :=
  match s with
  | EmptyString => false
  | String c s' => (isspace c && starts_with_space s') || has_space_run s'
  end.

(** Trimmed, and every whitespace run is one plain space. *)
Definition normalized (s : string) : Prop :=
  starts_with_space s = false /\ ends_with_space s = false /\
  has_space_run s = false /\
  all_chars (fun c => negb (isspace c) || Ascii.eqb c " "%char) s = true.

Definition validate_num_results (value min_val max_val : Z)
  : ValidationResult :=
  if value <? min_val then
    {| is_valid := false; value := str_of_int value;
       error := Some ("Value must be at least " ++ str_of_int min_val) |}
  else if value >? max_val then
    {| is_valid := false; value := str_of_int value;
       error := Some ("Value must be at most " ++ str_of_int max_val) |}
  else {| is_valid := true; value := str_of_int value; error := None |}.

(** [d in l], for strings. *)
Definition occurs (d l : string) : Prop := exists a b, l = a ++ d ++ b.

(** A text one of the [dangerous_patterns] matches as a whole: ["<script"]
    or ["javascript:"] in any letter case, or [on], at least one word
    character, any whitespace and an equals sign. *)
Definition dangerous (w : string) : Prop :=
  lower w = "<script" \/ lower w = "javascript:" \/
  exists h name sp,
    w = h ++ name ++ sp ++ "=" /\ lower h = "on" /\ name <> "" /\
    all_chars word_char name = true /\ all_chars isspace sp = true.

Definition contains_dangerous (t : string) : Prop :=
  exists a w b, t = a ++ w ++ b /\ dangerous w.

(** [email.split("@")[0]] *)
Definition local_part (email : string) : option string :=
  nth_error (split "@"%char email) 0.

End Validators.

(* ===================================================================== *)
(** ** app/config/settings.py                                            *)
(* ===================================================================== *)

Module Config.

(** [Literal["gemini", "openai"]] *)
Inductive provider : Type := gemini | openai.

(** The fields of [Settings] the modelled code reads. *)
Record Settings : Type := {
  google_api_key : option string;
  openai_api_key : option string;
  llm_provider : provider;
  gemini_model : string;
  openai_model : string;
  llm_temperature : Q;
  serper_api_key : option string;
  email_user : option string;
  email_pass : option string;
  enable_memory : bool;
  enable_verbose : bool;
  max_agent_iterations : Z;
  max_rpm : Z
}.

(** The constraints pydantic enforces when a [Settings] is built:
    [ge=0.0, le=2.0], [ge=1, le=20] and [ge=1]. *)
Definition validated (s : Settings) : Prop :=
  (0 <= llm_temperature s <= 2)%Q /\
  1 <= max_agent_iterations s <= 20 /\
  1 <= max_rpm s.

Definition current_model (s : Settings) : string :=
  match llm_provider s with
  | openai => openai_model s
  | gemini => gemini_model s
  end.

Definition current_api_key (s : Settings) : option string :=
  match llm_provider s with
  | openai => openai_api_key s
  | gemini => google_api_key s
  end.

(** [x is not None] *)
Definition is_not_None {A : Type} (x : option A) : bool :=
  match x with Some _ => true | None => false end.

(** [not x] for an [Optional[str]]: [None] and the empty string are falsy. *)
Definition py_not (x : option string) : bool :=
  match x with
  | None => true
  | Some s => String.eqb s ""
  end.

(** The dict returned by [validate_required_keys], one field per key. *)
Record RequiredKeys : Type := { llm : bool; search : bool; email : bool }.

Definition validate_required_keys (s : Settings) : RequiredKeys :=
  {| llm := is_not_None (current_api_key s);
     search := is_not_None (serper_api_key s);
     email := is_not_None (email_user s) && is_not_None (email_pass s) |}.

Definition get_missing_keys (s : Settings) : list string :=
  let missing := [] in
  let validation := validate_required_keys s in
  let missing :=
    if negb (llm validation) then
      let key_name := match llm_provider s with
                      | openai => "OPENAI_API_KEY"
                      | gemini => "GOOGLE_API_KEY"
                      end in
      (missing ++ [key_name])%list
    else missing in
  let missing :=
    if negb (search validation) then (missing ++ ["SERPER_API_KEY"])%list
    else missing in
  let missing :=
    if negb (email validation) then
      let missing :=
        if py_not (email_user s) then (missing ++ ["EMAIL_USER"])%list
        else missing in
      let missing :=
        if py_not (email_pass s) then (missing ++ ["EMAIL_PASS"])%list
        else missing in
      missing
    else missing in
  missing.

(** The specification's reading of the check: the names, in the fixed
    order, of the required settings that are absent, for a given notion
    [absent] of absence. *)
Definition missing_by_spec (absent : option string -> bool) (s : Settings)
  : list string :=
  ((if absent (current_api_key s)
    then [match llm_provider s with
          | openai => "OPENAI_API_KEY"
          | gemini => "GOOGLE_API_KEY"
          end]
    else [])
   ++ (if absent (serper_api_key s) then ["SERPER_API_KEY"] else [])
   ++ (if absent (email_user s) then ["EMAIL_USER"] else [])
   ++ (if absent (email_pass s) then ["EMAIL_PASS"] else []))%list.

(** Absent as "not set". *)
Definition unset (x : option string) : bool := negb (is_not_None x).

(** No required setting is set to the empty string. *)
Definition no_empty_values (s : Settings) : Prop :=
  current_api_key s <> Some "" /\ serper_api_key s <> Some "" /\
  email_user s <> Some "" /\ email_pass s <> Some "".

(** A configuration with every default of the class and all four
    required settings given. *)
Definition configured : Settings :=
  {| google_api_key := Some "g-key";
     openai_api_key := None;
     llm_provider := gemini;
     gemini_model := "gemini/gemini-2.5-flash";
     openai_model := "gpt-4-turbo-preview";
     llm_temperature := 7 # 10;
     serper_api_key := Some "s-key";
     email_user := Some "bot@example.com";
     email_pass := Some "secret";
     enable_memory := true;
     enable_verbose := true;
     max_agent_iterations := 5;
     max_rpm := 4 |}.

(** The environment [GOOGLE_API_KEY=], [SERPER_API_KEY=s-key],
    [EMAIL_USER=], with [EMAIL_PASS] and [OPENAI_API_KEY] not set. *)
Definition blank_key_settings : Settings :=
  {| google_api_key := Some "";
     openai_api_key := None;
     llm_provider := gemini;
     gemini_model := "gemini/gemini-2.5-flash";
     openai_model := "gpt-4-turbo-preview";
     llm_temperature := 7 # 10;
     serper_api_key := Some "s-key";
     email_user := Some "";
     email_pass := None;
     enable_memory := true;
     enable_verbose := true;
     max_agent_iterations := 5;
     max_rpm := 4 |}.

(** [os.environ], as far as the application writes it. *)
Definition environ : Type := list (string * string).

(** [os.environ[k] = v] *)
Fixpoint environ_set (env : environ) (k v : string) : environ :=
  match env with
  | [] => [(k, v)]
  | (k', v') :: env' =>
      if String.eqb k k' then (k, v) :: env'
      else (k', v') :: environ_set env' k v
  end.

(** [if x: os.environ[k] = x] for an [Optional[str]] setting. *)
Definition export_if_set (env : environ) (k : string) (x : option string)
  : environ :=
  match x with
  | Some v => if String.eqb v "" then env else environ_set env k v
  | None => env
  end.

Definition setup_crewai_environment (settings : Settings) (env : environ)
  : environ :=
  let env := environ_set env "CREWAI_EMBEDDING_PROVIDER" "local" in
  let env := environ_set env "CREWAI_EMBEDDING_MODEL"
               "sentence-transformers/all-MiniLM-L6-v2" in
  let env := environ_set env "CHROMA_OPENAI_API_KEY" "fake-key" in
  let env := environ_set env "CREWAI_STORAGE_DISABLED" "true" in
  let env := export_if_set env "GOOGLE_API_KEY" (google_api_key settings) in
  let env := export_if_set env "OPENAI_API_KEY" (openai_api_key settings) in
  let env := export_if_set env "SERPER_API_KEY" (serper_api_key settings) in
  env.

(** The value a key variable has after the set-up: the setting when it is
    set and not empty, else what the variable held before. *)
Definition exported (x : option string) (before : option string)
  : option string :=
  match x with
  | Some v => if String.eqb v "" then before else Some v
  | None => before
  end.

(** The names [get_missing_keys] can report, in the order of its tests. *)
Definition reportable_names (s : Settings) : list string :=
  [ match llm_provider s with
    | openai => "OPENAI_API_KEY"
    | gemini => "GOOGLE_API_KEY"
    end;
    "SERPER_API_KEY"; "EMAIL_USER"; "EMAIL_PASS" ].

(** [xs] is [ys] with some entries left out. *)
Fixpoint subseq (xs ys : list string) : bool :=
  match xs, ys with
  | [], _ => true
  | _ :: _, [] => false
  | x :: xs', y :: ys' =>
      if String.eqb x y then subseq xs' ys' else subseq xs ys'
  end.

End Config.

(* ===================================================================== *)
(** ** app/agents/base_agent.py and app/agents/email_agent.py            *)
(* ===================================================================== *)

Module Agents.
Import Config.

(** Modelled from the spec: the module [app/tools/email_tool.py], which
    defines the email tool and [create_email_tool], is not among the
    sources.  The specification only says that the Email-Sender is bound
    to an email tool, and [create_agent] only stores the tools it is given,
    so the email tool is one opaque value next to the search tool of
    [app/tools/search_tool.py]. *)
Inductive Tool : Type :=
| SearchTool (max_results : Z)
| EmailTool.

Definition create_email_tool : Tool := EmailTool.

(** An [LLM] object: [obj_id] is the identity of the object ([is]). *)
Record LLM : Type := {
  obj_id : nat;
  model : string;
  temperature : Q;
  max_retries : Z
}.

Record AgentConfig : Type := {
  cfg_role : string;
  cfg_goal : string;
  cfg_backstory : string;
  cfg_tools : list Tool;
  cfg_verbose : bool;
  cfg_max_iter : Z;
  cfg_allow_delegation : bool
}.

(** The keyword arguments [Agent] receives. *)
Record Agent : Type := {
  role : string;
  goal : string;
  backstory : string;
  tools : list Tool;
  agent_llm : LLM;
  verbose : bool;
  max_iter : Z;
  allow_delegation : bool
}.

(** The class attribute [AgentFactory._llm_instance], and the number of
    [LLM] objects constructed so far, which numbers the next one. *)
Record factory : Type := {
  _llm_instance : option LLM;
  constructed : nat
}.

(** [get_llm]: the returned object and the class state after the call. *)
Definition get_llm (settings : Settings) (cls : factory) : LLM * factory :=
  match _llm_instance cls with
  | None =>
      let fresh := {| obj_id := constructed cls;
                      model := current_model settings;
                      temperature := llm_temperature settings;
                      max_retries := 5 |} in
      (fresh, {| _llm_instance := Some fresh;
                 constructed := S (constructed cls) |})
  | Some inst => (inst, cls)
  end.

Definition reset_llm (cls : factory) : factory :=
  {| _llm_instance := None; constructed := constructed cls |}.

(** [a or b] on integers. *)
Definition int_or (a b : Z) : Z := if a =? 0 then b else a.

Definition create_agent (settings : Settings) (config : AgentConfig)
  (cls : factory) : Agent * factory :=
  let (the_llm, cls') := get_llm settings cls in
  ({| role := cfg_role config;
      goal := cfg_goal config;
      backstory := cfg_backstory config;
      tools := cfg_tools config;
      agent_llm := the_llm;
      verbose := enable_verbose settings && cfg_verbose config;
      max_iter := int_or (max_agent_iterations settings) (cfg_max_iter config);
      allow_delegation := cfg_allow_delegation config |}, cls').

Definition EMAIL_AGENT_BACKSTORY : string :=
  "You are a senior communications specialist with expertise in 
corporate communications and professional correspondence. Your strengths include:

- Crafting clear, engaging professional emails
- Adapting tone and style for different audiences
- Structuring information for maximum impact and readability
- Writing compelling subject lines that encourage opens
- Ensuring proper email etiquette and formatting

Your approach to professional email communication:
1. Open with a clear, professional greeting
2. State the purpose immediately
3. Present key information in a scannable format
4. Use bullet points and sections for clarity
5. Include a clear call-to-action if needed
6. Close professionally with appropriate sign-off

You understand that email is often the first impression an organization makes,
and you treat every message as an opportunity to demonstrate professionalism and value.".

(** The [AgentConfig] built by [create_email_agent]; [verbose] keeps its
    dataclass default. *)
Definition email_agent_config : AgentConfig :=
  {| cfg_role := "Email Communication Specialist";
     cfg_goal := "Compose and send professional, well-formatted research reports via email";
     cfg_backstory := EMAIL_AGENT_BACKSTORY;
     cfg_tools := [create_email_tool];
     cfg_verbose := true;
     cfg_max_iter := 2;
     cfg_allow_delegation := false |}.

Definition create_email_agent (settings : Settings) (cls : factory)
  : Agent * factory :=
  create_agent settings email_agent_config cls.

(** Every cached object was numbered below the construction count. *)
Definition factory_wf (cls : factory) : Prop :=
  match _llm_instance cls with
  | Some inst => (obj_id inst < constructed cls)%nat
  | None => True
  end.

(** [KeyError], for a dictionary index that is not there. *)
Definition KeyError (key : string) : exn :=
  {| exn_is_Exception := true; exn_str := "'" ++ key ++ "'" |}.

Definition RESEARCHER_BACKSTORY : string :=
  "You are an elite web research specialist with over a decade 
of experience in investigative journalism and academic research. Your expertise lies in:

- Finding credible, authoritative sources across the internet
- Distinguishing reliable information from misinformation
- Synthesizing complex data from multiple sources
- Identifying emerging trends and expert opinions
- Fact-checking and source verification

You approach every research task methodically:
1. First, understand the core question and its context
2. Search for primary sources and expert opinions
3. Cross-reference information across multiple sources
4. Note publication dates and source credibility
5. Compile findings with proper citations

You are known for your thoroughness, accuracy, and ability to find 
information others might miss. You always prioritize quality over quantity.".

Definition researcher_config (topic : string) (num_results : Z) : AgentConfig :=
  {| cfg_role := "Senior Web Research Specialist";
     cfg_goal := "Conduct comprehensive, accurate web research on: " ++ topic;
     cfg_backstory := RESEARCHER_BACKSTORY;
     cfg_tools := [SearchTool num_results];
     cfg_verbose := true;
     cfg_max_iter := 5;
     cfg_allow_delegation := false |}.

Definition create_researcher_agent (settings : Settings) (topic : string)
  (num_results : Z) (cls : factory) : Agent * factory :=
  create_agent settings (researcher_config topic num_results) cls.

Definition SUMMARIZER_BACKSTORY : string :=
  "You are a world-class content analyst and strategic communicator 
with extensive experience in business intelligence and executive reporting. Your expertise includes:

- Transforming complex research data into clear, actionable insights
- Identifying key patterns, trends, and implications
- Structuring information for different audiences and purposes
- Writing compelling narratives that highlight critical findings
- Providing strategic recommendations based on data analysis

Your approach to content analysis:
1. Review all research findings comprehensively
2. Identify the most significant and actionable insights
3. Organize information in a logical, hierarchical structure
4. Highlight implications and potential impacts
5. Craft recommendations based on evidence

You excel at making complex information accessible and actionable,
always tailoring your communication style to the intended format and audience.".

Definition FORMAT_REQUIREMENTS : list (string * string) :=
  [ ("Summary Report", "
Create a concise summary with:
- Key Findings (3-5 bullet points)
- Main trends and developments
- Actionable insights
- Source references
");
    ("Detailed Analysis", "
Create a comprehensive analysis with:
- Executive overview
- Detailed findings with supporting evidence
- Trend analysis and implications
- Expert opinions and perspectives
- Strategic recommendations
- Complete source citations
");
    ("Executive Brief", "
Create a one-page executive brief with:
- Critical headline findings
- Business implications
- Immediate recommendations
- Risk factors (if any)
- Key takeaways for leadership
") ].

Definition summarizer_config (report_format format_requirements : string)
  : AgentConfig :=
  {| cfg_role := "Content Analysis & Summarization Expert";
     cfg_goal := "Create an exceptional " ++ report_format
                 ++ " that transforms research data into actionable insights";
     cfg_backstory := SUMMARIZER_BACKSTORY
                      ++ String "010"%char (String "010"%char
                           "Current Task Requirements:")
                      ++ format_requirements;
     cfg_tools := [];
     cfg_verbose := true;
     cfg_max_iter := 3;
     cfg_allow_delegation := false |}.

(** [FORMAT_REQUIREMENTS.get(report_format, FORMAT_REQUIREMENTS["Summary Report"])]
    evaluates the default first. *)
Definition create_summarizer_agent (settings : Settings) (report_format : string)
  (cls : factory) : outcome (Agent * factory) :=
  match PyStr.dict_get FORMAT_REQUIREMENTS "Summary Report" with
  | None => Raise (KeyError "Summary Report")
  | Some default =>
      let format_requirements :=
        match PyStr.dict_get FORMAT_REQUIREMENTS report_format with
        | Some v => v
        | None => default
        end in
      Ok (create_agent settings
            (summarizer_config report_format format_requirements) cls)
  end.

(** The class state when the module is loaded. *)
Definition initial_factory : factory :=
  {| _llm_instance := None; constructed := 0 |}.

End Agents.

(* ===================================================================== *)
(** ** app/services/crew_service.py                                      *)
(* ===================================================================== *)

Module CrewService.
Import PyStr Config Agents.

#[local] Set Warnings "-register-all".

(** The keyword arguments [Task] receives in [app/tasks/research_tasks.py]. *)
Inductive Task : Type :=
  mkTask (description expected_output : string) (agent : Agent)
         (context : list Task).

Record TaskOutput : Type := { raw : string }.

(** What [kickoff] returns; [tasks_output] is [None] when the attribute is
    missing or holds [None]. *)
Record CrewOutput : Type := { tasks_output : option (list TaskOutput) }.

(** The keyword arguments [Crew] receives. *)
Record Crew : Type := {
  agents : list Agent;
  tasks : list Task;
  crew_verbose : bool;
  memory : bool;
  crew_max_rpm : Z
}.

(** The calls the workflow makes into the agent, task and engine layers;
    each either returns or raises. *)
Record collaborators : Type := {
  create_researcher_agent : string -> Z -> outcome Agent;
  create_summarizer_agent : string -> outcome Agent;
  create_email_agent : outcome Agent;
  create_research_task : Agent -> string -> Z -> outcome Task;
  create_summarization_task : Agent -> string -> Task -> outcome Task;
  create_email_task : Agent -> string -> string -> string -> Task -> outcome Task;
  new_Crew : Crew -> outcome unit;
  kickoff : Crew -> outcome CrewOutput
}.

(** What one run is given: the readings of [datetime.now()] in
    microseconds, numbered in call order; the callback handed to
    [CrewService.__init__], which returns [None] or raises; the cached
    settings; and the collaborators. *)
Record env : Type := {
  now_at : nat -> Z;
  progress_callback : option (Z -> string -> option exn);
  settings : Settings;
  ext : collaborators
}.

(** The calls made on the [TaskLogger], with their arguments. *)
Inductive log_event : Type :=
| log_start (message : string)
| log_progress (message : string) (percentage : option Z)
| log_success (execution_time elapsed : Z)
| log_error (message : string) (exception : exn).

(** What a run changes: how often the clock was read, the [start_time] of
    the task logger, the log, and the calls received by the callback. *)
Record world : Type := {
  clock_reads : nat;
  logger_start_time : Z;
  log : list log_event;
  progress_calls : list (Z * string)
}.

(** The dataclass [ResearchResult].  Times are in microseconds, the
    resolution of [datetime]: [execution_time] stands for the float
    [total_seconds()], which is this number divided by 1000000. *)
Record ResearchResult : Type := {
  success : bool;
  research_output : option string;
  summary_output : option string;
  email_output : option string;
  error_message : option string;
  execution_time : Z;
  timestamp : Z
}.

(** Computations that read and change the world and may raise. *)
Definition M (A : Type) : Type := world -> outcome A * world.

Definition ret {A : Type} (a : A) : M A := fun w => (Ok a, w).

Definition bind {A B : Type} (m : M A) (k : A -> M B) : M B :=
  fun w =>
    match m w with
    | (Ok a, w') => k a w'
    | (Raise e, w') => (Raise e, w')
    end.

Definition raise {A : Type} (e : exn) : M A := fun w => (Raise e, w).

(** A call into a collaborator. *)
Definition call {A : Type} (o : outcome A) : M A := fun w => (o, w).

(** [try: body except Exception as e: handler(e)] *)
Definition try_except {A : Type} (body : M A) (handler : exn -> M A) : M A :=
  fun w =>
    match body w with
    | (Ok a, w') => (Ok a, w')
    | (Raise e, w') =>
        if exn_is_Exception e then handler e w' else (Raise e, w')
    end.

Notation "x <- m ;; k" := (bind m (fun x => k))
  (at level 61, m at next level, right associativity).
Notation "m ;;; k" := (bind m (fun _ => k))
  (at level 61, right associativity).

(** [datetime.now()] *)
Definition datetime_now (E : env) : M Z :=
  fun w => (Ok (now_at E (clock_reads w)),
            {| clock_reads := S (clock_reads w);
               logger_start_time := logger_start_time w;
               log := log w;
               progress_calls := progress_calls w |}).

Definition emit (ev : log_event) : M unit :=
  fun w => (Ok tt,
            {| clock_reads := clock_reads w;
               logger_start_time := logger_start_time w;
               log := (log w ++ [ev])%list;
               progress_calls := progress_calls w |}).

Definition set_logger_start_time (t : Z) : M unit :=
  fun w => (Ok tt,
            {| clock_reads := clock_reads w;
               logger_start_time := t;
               log := log w;
               progress_calls := progress_calls w |}).

Definition get_logger_start_time : M Z :=
  fun w => (Ok (logger_start_time w), w).

(** The callback receives a call. *)
Definition invoke (cb : Z -> string -> option exn) (percentage : Z)
  (message : string) : M unit :=
  fun w =>
    let w' := {| clock_reads := clock_reads w;
                 logger_start_time := logger_start_time w;
                 log := log w;
                 progress_calls :=
                   (progress_calls w ++ [(percentage, message)])%list |} in
    match cb percentage message with
    | None => (Ok tt, w')
    | Some e => (Raise e, w')
    end.

(** [TaskLogger.start], [.progress], [.success] and [.error]. *)
Definition task_logger_start (E : env) (message : string) : M unit :=
  t <- datetime_now E ;;
  set_logger_start_time t ;;;
  emit (log_start message).

Definition task_logger_progress (message : string) (percentage : option Z)
  : M unit :=
  emit (log_progress message percentage).

Definition task_logger_success (E : env) (execution_time : Z) : M unit :=
  t <- datetime_now E ;;
  t0 <- get_logger_start_time ;;
  emit (log_success execution_time (t - t0)).

Definition task_logger_error (message : string) (exception : exn) : M unit :=
  emit (log_error message exception).

Definition _update_progress (E : env) (percentage : Z) (message : string)
  : M unit :=
  match progress_callback E with
  | Some cb => invoke cb percentage message
  | None => ret tt
  end ;;;
  task_logger_progress message (Some percentage).

(** [outs[i].raw if len(outs) > i else None] *)
Definition raw_at (outs : list TaskOutput) (i : nat) : option string :=
  if Nat.ltb i (List.length outs) then option_map raw (nth_error outs i)
  else None.

(** The block under [# Extract task outputs]: the three slots start as
    [None] and are filled when [tasks_output] is there and not empty. *)
Definition extract_outputs (result : CrewOutput)
  : option string * option string * option string :=
  match tasks_output result with
  | Some (o :: outs) =>
      (raw_at (o :: outs) 0, raw_at (o :: outs) 1, raw_at (o :: outs) 2)
  | _ => (None, None, None)
  end.

Definition execute_research_workflow (E : env) (topic recipient_email : string)
  (report_format : string) (num_results : Z) : M ResearchResult :=
  start_time <- datetime_now E ;;
  task_logger_start E
    ("Starting research workflow for: " ++ take 50 topic ++ "...") ;;;
  try_except
    (_update_progress E 10 "Assembling AI research team..." ;;;
     researcher <- call (create_researcher_agent (ext E) topic num_results) ;;
     summarizer <- call (create_summarizer_agent (ext E) report_format) ;;
     email_agent <- call (create_email_agent (ext E)) ;;
     _update_progress E 25 "Configuring research tasks..." ;;;
     research_task <-
       call (create_research_task (ext E) researcher topic num_results) ;;
     summarization_task <-
       call (create_summarization_task (ext E) summarizer report_format
               research_task) ;;
     email_task <-
       call (create_email_task (ext E) email_agent recipient_email topic
               report_format summarization_task) ;;
     _update_progress E 40 "Initiating research process..." ;;;
     let crew :=
       {| agents := [researcher; summarizer; email_agent];
          tasks := [research_task; summarization_task; email_task];
          crew_verbose := enable_verbose (settings E);
          memory := enable_memory (settings E);
          crew_max_rpm := max_rpm (settings E) |} in
     call (new_Crew (ext E) crew) ;;;
     _update_progress E 50 "AI agents working on research..." ;;;
     result <- call (kickoff (ext E) crew) ;;
     _update_progress E 90 "Finalizing results..." ;;;
     let '(research_output, summary_output, email_output) :=
       extract_outputs result in
     end_time <- datetime_now E ;;
     let execution_time := end_time - start_time in
     _update_progress E 100 "Research complete!" ;;;
     task_logger_success E execution_time ;;;
     created <- datetime_now E ;;
     ret {| success := true;
            research_output := research_output;
            summary_output := summary_output;
            email_output := email_output;
            error_message := None;
            execution_time := execution_time;
            timestamp := created |})
    (fun e =>
       end_time <- datetime_now E ;;
       let execution_time := end_time - start_time in
       let error_message := exn_str e in
       task_logger_error "Workflow failed" e ;;;
       created <- datetime_now E ;;
       ret {| success := false;
              research_output := None;
              summary_output := None;
              email_output := None;
              error_message := Some error_message;
              execution_time := execution_time;
              timestamp := created |}).

(** The six milestones of a complete run. *)
Definition milestones : list (Z * string) :=
  [ (10, "Assembling AI research team...");
    (25, "Configuring research tasks...");
    (40, "Initiating research process...");
    (50, "AI agents working on research...");
    (90, "Finalizing results...");
    (100, "Research complete!") ].

(** What the callback has received after the run, given what it had
    received before: the milestones, when there is a callback. *)
Definition calls_after (E : env) (w : world) : list (Z * string) :=
  match progress_callback E with
  | Some _ => (progress_calls w ++ milestones)%list
  | None => progress_calls w
  end.

(** The callback, if any, returns from every call. *)
Definition callback_returns (E : env) : Prop :=
  match progress_callback E with
  | Some cb => forall p m, cb p m = None
  | None => True
  end.

(** The agent and task builders and the [Crew] constructor return, and [c]
    is the crew they give. *)
Definition crew_of (E : env) (topic recipient_email report_format : string)
  (num_results : Z) (c : Crew) : Prop :=
  exists researcher summarizer email_agent research_task summarization_task
         email_task,
    create_researcher_agent (ext E) topic num_results = Ok researcher /\
    create_summarizer_agent (ext E) report_format = Ok summarizer /\
    create_email_agent (ext E) = Ok email_agent /\
    create_research_task (ext E) researcher topic num_results = Ok research_task /\
    create_summarization_task (ext E) summarizer report_format research_task
      = Ok summarization_task /\
    create_email_task (ext E) email_agent recipient_email topic report_format
      summarization_task = Ok email_task /\
    c = {| agents := [researcher; summarizer; email_agent];
           tasks := [research_task; summarization_task; email_task];
           crew_verbose := enable_verbose (settings E);
           memory := enable_memory (settings E);
           crew_max_rpm := max_rpm (settings E) |} /\
    new_Crew (ext E) c = Ok tt.

(** [ResearchResult.get_task_outputs] *)
Definition get_task_outputs (self : ResearchResult) : list string :=
  let outputs := [] in
  let outputs :=
    if py_not (research_output self) then outputs
    else (outputs ++ match research_output self with
                     | Some s => [s] | None => [] end)%list in
  let outputs :=
    if py_not (summary_output self) then outputs
    else (outputs ++ match summary_output self with
                     | Some s => [s] | None => [] end)%list in
  let outputs :=
    if py_not (email_output self) then outputs
    else (outputs ++ match email_output self with
                     | Some s => [s] | None => [] end)%list in
  outputs.

(** [CrewService.__init__]: the task logger it creates reads the clock.
    The environment variables it also sets are outside the [world]; see
    [Config.setup_crewai_environment]. *)
Definition CrewService_init (E : env) : M unit :=
  t <- datetime_now E ;;
  set_logger_start_time t.

(** [validate_configuration] and [get_missing_configuration] *)
Definition validate_configuration (E : env) : RequiredKeys :=
  validate_required_keys (settings E).

Definition get_missing_configuration (E : env) : list string :=
  get_missing_keys (settings E).

(** A scripted run: builders that return fixed objects, and an engine
    whose [kickoff] gives [k]. *)
Definition stub_llm : LLM :=
  {| obj_id := 0; model := "gemini/gemini-2.5-flash"; temperature := 7 # 10;
     max_retries := 5 |}.

Definition stub_agent (title : string) (ts : list Tool) (cap : Z) : Agent :=
  {| role := title; goal := ""; backstory := ""; tools := ts;
     agent_llm := stub_llm; verbose := true; max_iter := cap;
     allow_delegation := false |}.

Definition scripted (k : outcome CrewOutput) : collaborators :=
  {| create_researcher_agent := fun _ n =>
       Ok (stub_agent "Senior Web Research Specialist" [SearchTool n] 5);
     create_summarizer_agent := fun _ =>
       Ok (stub_agent "Content Analyst" [] 5);
     create_email_agent :=
       Ok (stub_agent "Email Communication Specialist" [EmailTool] 5);
     create_research_task := fun a _ _ => Ok (mkTask "" "" a []);
     create_summarization_task := fun a _ t => Ok (mkTask "" "" a [t]);
     create_email_task := fun a _ _ _ t => Ok (mkTask "" "" a [t]);
     new_Crew := fun _ => Ok tt;
     kickoff := fun _ => k |}.

Definition scripted_env (clock : nat -> Z)
  (cb : option (Z -> string -> option exn)) (k : outcome CrewOutput) : env :=
  {| now_at := clock; progress_callback := cb;
     settings := Config.configured; ext := scripted k |}.

Definition initial_world : world :=
  {| clock_reads := 0; logger_start_time := 0; log := [];
     progress_calls := [] |}.

(** [Exception()], whose [str] is empty. *)
Definition bare_Exception : exn :=
  {| exn_is_Exception := true; exn_str := "" |}.

(** [KeyboardInterrupt()], which [except Exception] lets through. *)
Definition KeyboardInterrupt : exn :=
  {| exn_is_Exception := false; exn_str := "" |}.

(** The failure record returned by the handler. *)
Definition failure_record (message : string) (elapsed created : Z)
  : ResearchResult :=
  {| success := false;
     research_output := None;
     summary_output := None;
     email_output := None;
     error_message := Some message;
     execution_time := elapsed;
     timestamp := created |}.

End CrewService.

(* ===================================================================== *)
(** ** app/tasks/research_tasks.py                                       *)
(* ===================================================================== *)

Module Tasks.
Import PyStr Agents CrewService.

(** The double quote character. *)
Definition dq : string := String (ascii_of_nat 34) EmptyString.

(** [sep.join(parts)] *)
Fixpoint join (sep : string) (parts : list string) : string :=
  match parts with
  | [] => ""
  | [p] => p
  | p :: rest => p ++ sep ++ join sep rest
  end.

(** [create_research_task]; [Task] is built without [context]. *)
Definition create_research_task (agent : Agent) (topic : string)
  (num_results : Z) (focus_areas : option (list string)) : Task :=
  let focus_section :=
    match focus_areas with
    | Some (a :: others) =>
        String "010"%char (String "010"%char "Focus Areas:")
        ++ String "010"%char ""
        ++ join (String "010"%char "")
             (map (fun area => "- " ++ area) (a :: others))
    | _ => ""
    end in
  let description :=
    "
Conduct comprehensive web research on: " ++
    topic ++
    "

Research Requirements:
1. Search for the most current and relevant information
2. Focus on credible, authoritative sources
3. Gather information from at least " ++
    (str_of_int num_results) ++
    " different perspectives or sources
4. Include:
   - Current trends and developments
   - Expert opinions and analysis
   - Key statistics and data points
   - Recent news and announcements
5. Note publication dates and assess source credibility
6. Look for both supporting and contrasting viewpoints
" ++
    focus_section ++
    "

Quality Standards:
- Prioritize recency (prefer sources from the last 12 months)
- Verify key facts across multiple sources when possible
- Include direct quotes from experts where available
- Note any limitations or gaps in available information

Provide detailed findings with proper source citations.
" in
  let expected_output :=
    "
A comprehensive research report containing:
- " ++
    (str_of_int num_results) ++
    "+ credible sources with full citations
- Key findings organized by theme
- Current trends and developments
- Expert insights and opinions
- Data and statistics (with sources)
- Publication dates for all sources
" in
  mkTask (strip description) (strip expected_output) agent [].

Definition format_instructions : list (string * string) :=
  [ ("Summary Report", "
Structure your report as:
1. **Executive Summary** (2-3 sentences)
2. **Key Findings** (3-5 bullet points with brief explanations)
3. **Current Trends** (What's happening now)
4. **Actionable Insights** (What this means for the reader)
5. **Sources** (List of references used)
");
    ("Detailed Analysis", "
Structure your report as:
1. **Executive Overview** (1 paragraph summary)
2. **Background & Context** (Why this matters)
3. **Detailed Findings** (Organized by theme with supporting evidence)
4. **Trend Analysis** (Patterns and trajectories)
5. **Expert Perspectives** (What thought leaders say)
6. **Implications & Recommendations** (What to do with this information)
7. **Appendix: Sources & Methodology**
");
    ("Executive Brief", "
Structure your report as:
1. **Bottom Line Up Front** (The single most important takeaway)
2. **Critical Findings** (3 bullet points maximum)
3. **Business Impact** (Why leadership should care)
4. **Recommended Actions** (Next steps)
5. **Key Sources** (2-3 most credible references)

Keep the entire brief to one page maximum.
") ].

(** [create_summarization_task]; the default of [.get] is evaluated
    first. *)
Definition create_summarization_task (agent : Agent) (report_format : string)
  (research_task : Task) : outcome Task :=
  match dict_get format_instructions "Summary Report" with
  | None => Raise (KeyError "Summary Report")
  | Some default =>
      let instructions :=
        match dict_get format_instructions report_format with
        | Some v => v
        | None => default
        end in
      let description :=
        "
Analyze the research findings and create a " ++
        report_format ++
        ".

Your Task:
1. Review all research findings provided
2. Identify the most significant and actionable insights
3. Synthesize information from multiple sources
4. Create a well-structured " ++
        report_format ++
        "
5. Ensure the output is professional and actionable

" ++
        instructions ++
        "

Writing Guidelines:
- Use clear, professional language
- Avoid jargon unless necessary (explain when used)
- Make the content scannable with headers and bullets
- Highlight surprising or particularly important findings
- Be objective and balanced in your analysis
- Use Markdown formatting for structure
" in
      let expected_output :=
        "
A professionally formatted " ++
        report_format ++
        " in Markdown with:
- Clear structure and organization
- Key insights prominently featured
- Actionable takeaways
- Proper source attribution
- Professional tone suitable for email delivery
" in
      Ok (mkTask (strip description) (strip expected_output) agent
            [research_task])
  end.

Definition create_email_task (agent : Agent)
  (recipient_email topic report_format : string) (summarization_task : Task)
  : Task :=
  let description :=
    "
Send a professional email with the research report to: " ++
    recipient_email ++
    "

Email Requirements:
1. Subject Line: " ++
    dq ++
    "AI Research Report: " ++
    topic ++
    " - " ++
    report_format ++
    dq ++
    "
2. Opening: Professional greeting
3. Introduction: Brief explanation of what this report contains
4. Body: The complete research summary/analysis
5. Closing: Professional sign-off with note about AI research methodology
6. Format: Use Markdown formatting (it will be converted to HTML)

Email Best Practices:
- Keep the introduction brief (2-3 sentences)
- Let the research content be the focus
- Include a call-to-action if appropriate (e.g., " ++
    dq ++
    "reply with questions" ++
    dq ++
    ")
- Maintain a helpful, professional tone
- Don't over-explain the AI methodology

Send the email and confirm successful delivery.
" in
  let expected_output :=
    "
Confirmation that:
1. Email was composed with proper formatting
2. Email was successfully sent to " ++
    recipient_email ++
    "
3. Subject line follows the specified format
4. Content includes the full research summary
" in
  mkTask (strip description) (strip expected_output) agent
    [summarization_task].

(** The fields of a task. *)
Definition description (t : Task) : string :=
  match t with mkTask d _ _ _ => d end.

Definition expected_output (t : Task) : string :=
  match t with mkTask _ e _ _ => e end.

Definition agent (t : Task) : Agent :=
  match t with mkTask _ _ a _ => a end.

Definition context (t : Task) : list Task :=
  match t with mkTask _ _ _ c => c end.

(** The subject line the email task asks for. *)
Definition subject_line (topic report_format : string) : string :=
  "Subject Line: " ++ dq ++ "AI Research Report: " ++ topic ++ " - "
  ++ report_format ++ dq.

End Tasks.

(* ===================================================================== *)
(** ** app/ui/components.py                                              *)
(* ===================================================================== *)

Module Components.
Import PyStr CrewService.

(** The calls a rendering function makes on [st], in order. *)
Inductive widget : Type :=
| subheader (body : string)
| columns (spec : Z)
| download_button (label data file_name mime : string)
                  (use_container_width : bool).

(** [c.isalnum() or c in " -_"] *)
Definition allowed (c : ascii) : bool :=
  (isalnum c || Validators.one_of " -_" c)%bool.

(** [c if c.isalnum() or c in " -_" else "_"] *)
Definition safe_char (c : ascii) : ascii :=
  if allowed c then c else "_"%char.

Fixpoint map_chars (f : ascii -> ascii) (s : string) : string :=
  match s with
  | EmptyString => EmptyString
  | String c s' => String (f c) (map_chars f s')
  end.

(** The two statements that compute [safe_topic]. *)
Definition safe_topic (topic : string) : string :=
  let safe_topic := map_chars safe_char topic in
  strip (take 50 safe_topic).

(** [if x:] for an [Optional[str]]: the text, when set and not empty. *)
Definition truthy (x : option string) : option string :=
  match x with
  | Some s => if String.eqb s "" then None else Some s
  | None => None
  end.

Definition render_download_buttons (result : ResearchResult) (topic : string)
  : list widget :=
  if negb (success result) then []
  else
    let safe_topic := safe_topic topic in
    ([subheader "Download Reports"; columns 2]
     ++ match truthy (research_output result) with
        | Some data =>
            [download_button "Download Research Report" data
               ("research_report_" ++ safe_topic ++ ".md") "text/markdown" true]
        | None => []
        end
     ++ match truthy (summary_output result) with
        | Some data =>
            [download_button "Download Summary" data
               ("summary_" ++ safe_topic ++ ".md") "text/markdown" true]
        | None => []
        end)%list.

(** The file names of the download buttons among [ws], in order. *)
Fixpoint file_names (ws : list widget) : list string :=
  match ws with
  | [] => []
  | download_button _ _ f _ _ :: ws' => f :: file_names ws'
  | _ :: ws' => file_names ws'
  end.

(** The specification's reading of the sanitising: characters other than
    alphanumerics, space, hyphen and underscore are dropped, and the first
    50 characters of what is left are kept. *)
Fixpoint strip_unsafe (s : string) : string :=
  match s with
  | EmptyString => EmptyString
  | String c s' =>
      if allowed c then String c (strip_unsafe s') else strip_unsafe s'
  end.

Definition safe_topic_by_spec (topic : string) : string :=
  take 50 (strip_unsafe topic).

(** A finished run with both reports. *)
Definition finished_run : ResearchResult :=
  {| success := true;
     research_output := Some "findings";
     summary_output := Some "summary";
     email_output := Some "sent";
     error_message := None;
     execution_time := 2000;
     timestamp := 4000 |}.

(** The file names a successful run is offered under. *)
Definition offered_names (result : ResearchResult) (topic : string)
  : list string :=
  let research_name := "research_report_" ++ safe_topic topic ++ ".md" in
  let summary_name := "summary_" ++ safe_topic topic ++ ".md" in
  (match truthy (research_output result) with
   | Some _ => [research_name]
   | None => []
   end
   ++ match truthy (summary_output result) with
      | Some _ => [summary_name]
      | None => []
      end)%list.

End Components.


(* ===================================================================== *)
(** ** app/main.py                                                       *)
(* ===================================================================== *)

Module Main.
Import PyStr Validators Config CrewService Components.

(** The calls made on [st] and on the two placeholders, in order. *)
Inductive st_call : Type :=
| st_markdown (body : string)
| st_code (body : string)
| st_info (body : string)
| st_error (body : string)
| st_empty
| st_spinner (text : string)
| placeholder_empty.

(** The double quote character. *)
Definition dq : string := String (ascii_of_nat 34) EmptyString.

(** [render_configuration_warning] of [app/ui/components.py] *)
Definition render_configuration_warning (missing_keys : list string)
  : list st_call :=
  ([st_markdown
      ("
    <div class=" ++ dq ++
     "warning-box" ++ dq ++
     ">
        <h4>Configuration Required</h4>
        <p>Please configure the following environment variables to use this application:</p>
    </div>
    ")]
   ++ map st_code missing_keys
   ++ [st_info "Copy `env_template.txt` to `.env` and fill in your API keys. See the README for detailed setup instructions."])%list.

(** [check_configuration]: the calls made and the value returned. *)
Definition check_configuration (E : env) : M (list st_call * bool) :=
  CrewService_init E ;;;
  let missing_keys := get_missing_configuration E in
  match missing_keys with
  | _ :: _ => ret (render_configuration_warning missing_keys, false)
  | [] => ret ([], true)
  end.

(** The dictionary returned by [render_config_panel]. *)
Record panel : Type := {
  panel_topic : string;
  panel_recipient_email : string;
  panel_num_results : Z;
  panel_report_format : string
}.

(** The two keys of [st.session_state] the application writes. *)
Record session : Type := {
  session_result : option ResearchResult;
  session_topic : option string
}.

(** [f"{x}"] for an [Optional[str]] *)
Definition fmt_optional (x : option string) : string :=
  match x with
  | Some s => s
  | None => "None"
  end.

(** [run_research]: the calls it has made and the session when it returns;
    the callback of the environment stands for the local function
    [update_progress]. *)
Definition run_research (E : env) (config : panel) (ss : session)
  : M (list st_call * session) :=
  email_result <- call (validate_email (panel_recipient_email config)) ;;
  if negb (is_valid email_result) then
    ret ([st_error ("Invalid email: " ++ fmt_optional (error email_result))], ss)
  else
    let topic_result := validate_topic (panel_topic config) 5 500 in
    if negb (is_valid topic_result) then
      ret ([st_error ("Invalid topic: " ++ fmt_optional (error topic_result))],
           ss)
    else
      CrewService_init E ;;;
      result <- execute_research_workflow E (value topic_result)
                  (value email_result) (panel_report_format config)
                  (panel_num_results config) ;;
      ret ([st_empty; st_empty; st_spinner "AI research team is working...";
            placeholder_empty; placeholder_empty],
           {| session_result := Some result;
              session_topic := Some (panel_topic config) |}).

(** The workflow as [run_research] starts it. *)
Definition launch (E : env) (config : panel) : M (list st_call * session) :=
  CrewService_init E ;;;
  result <- execute_research_workflow E
              (sanitize_topic (panel_topic config))
              (lower (strip (panel_recipient_email config)))
              (panel_report_format config) (panel_num_results config) ;;
  ret ([st_empty; st_empty; st_spinner "AI research team is working...";
        placeholder_empty; placeholder_empty],
       {| session_result := Some result;
          session_topic := Some (panel_topic config) |}).

(** The branch of [main] taken when the run button was pressed. *)
Definition on_run_button (E : env) (config : panel) (ss : session)
  : M (list st_call * session) :=
  if (String.eqb (panel_topic config) ""
      || String.eqb (panel_recipient_email config) "")%bool
  then ret ([st_error "Please fill in all required fields!"], ss)
  else run_research E config ss.

(** The download buttons [main] renders from the session:
    [st.session_state.get("topic", "research")] names the files. *)
Definition session_downloads (ss : session) : list widget :=
  match session_result ss with
  | Some result =>
      render_download_buttons result
        (match session_topic ss with Some t => t | None => "research" end)
  | None => []
  end.

End Main.

(* ===================================================================== *)
(** * Properties                                                         *)
(* ===================================================================== *)

(** ** Regular expressions: what a match looks like *)

Module ReFacts.
Import Re.

Lemma append_assoc (s t u : string) : (s ++ t) ++ u = s ++ (t ++ u).
Proof. induction s as [| c s IH]; simpl; [reflexivity | now rewrite IH]. Qed.

Lemma append_nil_r (s : string) : s ++ "" = s.
Proof. induction s as [| c s IH]; simpl; [reflexivity | now rewrite IH]. Qed.

Lemma nullable_Lang r : nullable r = true -> Lang r EmptyString.
Proof.
  induction r; simpl; intros H; try discriminate.
  - constructor.
  - apply andb_true_iff in H as [Ha Hb].
    change EmptyString with (EmptyString ++ EmptyString).
    constructor; auto.
  - apply orb_true_iff in H as [Ha | Hb]; [apply LAltL | apply LAltR]; auto.
  - constructor.
Qed.

Lemma deriv_Lang c r : forall s, Lang (deriv c r) s -> Lang r (String c s).
Proof.
  induction r; simpl; intros s H.
  - inversion H.
  - inversion H.
  - destruct (b c) eqn:Hb; inversion H; subst. now constructor.
  - destruct (nullable r1) eqn:Hn.
    + inversion H; subst.
      * match goal with X : Lang (Cat _ _) _ |- _ => inversion X; subst end.
        change (String c (s0 ++ t)) with (String c s0 ++ t).
        constructor; auto.
      * change (String c s) with (EmptyString ++ String c s).
        constructor; auto using nullable_Lang.
    + inversion H; subst.
      change (String c (s0 ++ t)) with (String c s0 ++ t).
      constructor; auto.
  - inversion H; subst; [apply LAltL | apply LAltR]; auto.
  - inversion H; subst.
    change (String c (s0 ++ t)) with (String c s0 ++ t).
    constructor; auto.
Qed.

Lemma accepts_Lang s : forall r, accepts r s = true -> Lang r s.
Proof.
  induction s as [| c s IH]; simpl; intros r H.
  - now apply nullable_Lang.
  - apply deriv_Lang. now apply IH.
Qed.

Lemma Forall_chars_app P s t :
  Forall_chars P (s ++ t) <-> Forall_chars P s /\ Forall_chars P t.
Proof. induction s; simpl; tauto. Qed.

Lemma Lang_chars P r s :
  Lang r s -> classes_within P r -> Forall_chars P s.
Proof.
  induction 1; simpl; intros Hc; auto.
  - apply Forall_chars_app. tauto.
  - tauto.
  - tauto.
  - apply Forall_chars_app. split; auto.
Qed.

End ReFacts.

(** ** Validators *)

Module ValidatorsFacts.
Import PyStr Re ReFacts Validators.

Lemma split_no_sep sep s :
  Forall_chars (fun c => c <> sep) s -> split sep s = [s].
Proof.
  induction s as [| c s IH]; simpl; intros H; [reflexivity |].
  destruct H as [Hc Hs].
  destruct (Ascii.eqb_spec c sep) as [-> | _]; [contradiction |].
  now rewrite (IH Hs).
Qed.

Lemma split_app sep l r :
  Forall_chars (fun c => c <> sep) l ->
  split sep (l ++ String sep r) = l :: split sep r.
Proof.
  induction l as [| c l IH]; simpl; intros H.
  - now rewrite Ascii.eqb_refl.
  - destruct H as [Hc Hl].
    destruct (Ascii.eqb_spec c sep) as [-> | _]; [contradiction |].
    now rewrite (IH Hl).
Qed.

Lemma not_at_local c : local_char c = true -> c <> "@"%char.
Proof. intros H ->. discriminate H. Qed.

Lemma not_at_domain c : domain_char c = true -> c <> "@"%char.
Proof. intros H ->. discriminate H. Qed.

Lemma not_at_az c : is_az c = true -> c <> "@"%char.
Proof. intros H ->. discriminate H. Qed.

Lemma not_at_lit (d : ascii) c :
  d <> "@"%char -> Ascii.eqb d c = true -> c <> "@"%char.
Proof. intros Hd H. apply Ascii.eqb_eq in H. now subst. Qed.

Lemma Lang_lit c s : Lang (lit c) s -> s = String c EmptyString.
Proof.
  unfold lit. intros H. inversion H; subst.
  match goal with X : Ascii.eqb _ _ = true |- _ => apply Ascii.eqb_eq in X end.
  now subst.
Qed.

(** An address the pattern accepts is a local part, an at-sign and a domain
    part, none of the two holding an at-sign, and the domain part is what
    [split] finds. *)
Lemma email_shape e :
  email_pattern_matches e = true ->
  exists l d,
    e = l ++ String "@"%char d /\
    Forall_chars (fun c => c <> "@"%char) l /\
    Forall_chars (fun c => c <> "@"%char) d /\
    domain_part e = Some d.
Proof.
  unfold email_pattern_matches, match_anchored. intros H.
  apply accepts_Lang in H.
  inversion H as [| | a b body tail Hbody Htail | | | |]; subst.
  unfold email_body in Hbody.
  inversion Hbody as [| | a b l rest Hl Hrest | | | |]; subst.
  inversion Hrest as [| | a b at_ d Hat Hd | | | |]; subst.
  apply Lang_lit in Hat. subst at_.
  change (String "@"%char EmptyString ++ d) with (String "@"%char d) in *.
  assert (Hl' : Forall_chars (fun c => c <> "@"%char) l).
  { apply (Lang_chars _ _ _ Hl). unfold Plus. cbn [classes_within].
    split; apply not_at_local. }
  assert (Hd' : Forall_chars (fun c => c <> "@"%char) d).
  { apply (Lang_chars _ _ _ Hd). unfold domain_re, Plus, lit.
    cbn [classes_within].
    repeat split; try apply not_at_domain; try apply not_at_az.
    intros c. apply not_at_lit. discriminate. }
  assert (Ht : Forall_chars (fun c => c <> "@"%char) tail).
  { apply (Lang_chars _ _ _ Htail). unfold dollar, lit.
    cbn [classes_within]. split; [exact I |].
    intros c. apply not_at_lit. discriminate. }
  exists l, (d ++ tail).
  assert (Hdt : Forall_chars (fun c => c <> "@"%char) (d ++ tail)).
  { apply Forall_chars_app. now split. }
  repeat split; auto.
  - now rewrite append_assoc.
  - unfold domain_part.
    replace ((l ++ String "@"%char d) ++ tail)
      with (l ++ String "@"%char (d ++ tail)).
    + rewrite (split_app _ _ _ Hl'), (split_no_sep _ _ Hdt). reflexivity.
    + now rewrite append_assoc.
Qed.

Lemma lstrip_start s : starts_with_space (lstrip s) = false.
Proof.
  induction s as [| c s IH]; simpl; [reflexivity |].
  destruct (isspace c) eqn:Hc; [exact IH | simpl; exact Hc].
Qed.

Lemma rstrip_start s :
  starts_with_space s = false -> starts_with_space (rstrip s) = false.
Proof.
  destruct s as [| c s]; simpl; [reflexivity |]. intros Hc.
  destruct (rstrip s); [rewrite Hc |]; simpl; exact Hc.
Qed.

Lemma rstrip_end s : ends_with_space (rstrip s) = false.
Proof.
  unfold ends_with_space.
  induction s as [| c s IH]; simpl; [reflexivity |].
  destruct (rstrip s) as [| c' r] eqn:Hr.
  - destruct (isspace c) eqn:Hc; simpl; [reflexivity | exact Hc].
  - change (last_char (String c (String c' r)))
      with (match last_char (String c' r) with
            | None => Some c | Some x => Some x end).
    destruct (last_char (String c' r)) eqn:Hl; [exact IH |].
    simpl in Hl. destruct (last_char r); discriminate.
Qed.

Lemma strip_trimmed s :
  starts_with_space (strip s) = false /\ ends_with_space (strip s) = false.
Proof.
  unfold strip. split; [apply rstrip_start, lstrip_start | apply rstrip_end].
Qed.

Lemma sub_spaces_last b s x :
  last_char s = Some x -> isspace x = false ->
  last_char (sub_spaces b s) = Some x.
Proof.
  revert b. induction s as [| c s IH]; simpl; intros b Hl Hx; [discriminate |].
  destruct (last_char s) as [y |] eqn:Hs.
  - injection Hl as ->.
    destruct (isspace c); [destruct b |]; simpl;
      try rewrite (IH _ eq_refl Hx); auto.
  - injection Hl as ->. destruct s; [| simpl in Hs; destruct (last_char s); discriminate].
    rewrite Hx. reflexivity.
Qed.

Lemma sub_spaces_end b s :
  ends_with_space s = false -> ends_with_space (sub_spaces b s) = false.
Proof.
  unfold ends_with_space. destruct (last_char s) as [x |] eqn:Hl; intros Hx.
  - now rewrite (sub_spaces_last b s x Hl Hx).
  - destruct s; [reflexivity | simpl in Hl; destruct (last_char s); discriminate].
Qed.

Lemma sub_spaces_true_start s : starts_with_space (sub_spaces true s) = false.
Proof.
  induction s as [| c s IH]; simpl; [reflexivity |].
  destruct (isspace c) eqn:Hc; [exact IH | simpl; exact Hc].
Qed.

Lemma sub_spaces_start s :
  starts_with_space s = false -> starts_with_space (sub_spaces false s) = false.
Proof.
  destruct s as [| c s]; simpl; [reflexivity |]. intros Hc. rewrite Hc. exact Hc.
Qed.

Lemma sub_spaces_no_run b s : has_space_run (sub_spaces b s) = false.
Proof.
  revert b. induction s as [| c s IH]; simpl; intros b; [reflexivity |].
  destruct (isspace c) eqn:Hc; [destruct b |]; simpl; rewrite ?IH; auto.
  - now rewrite sub_spaces_true_start.
  - now rewrite Hc.
Qed.

Lemma sub_spaces_plain b s :
  all_chars (fun c => negb (isspace c) || Ascii.eqb c " "%char)
            (sub_spaces b s) = true.
Proof.
  revert b. induction s as [| c s IH]; simpl; intros b; [reflexivity |].
  destruct (isspace c) eqn:Hc; [destruct b |]; simpl; rewrite ?IH, ?Hc; auto.
Qed.

Lemma sanitize_topic_normalized topic : normalized (sanitize_topic topic).
Proof.
  unfold normalized, sanitize_topic.
  destruct (strip_trimmed topic) as [Hs He].
  repeat split.
  - now apply sub_spaces_start.
  - now apply sub_spaces_end.
  - apply sub_spaces_no_run.
  - apply sub_spaces_plain.
Qed.

Lemma pattern_rejects_empty : email_pattern_matches "" = false.
Proof. reflexivity. Qed.

Lemma lower_strip_empty : lower (strip "") = "".
Proof. reflexivity. Qed.

Lemma matching_input_not_empty s :
  email_pattern_matches (lower (strip s)) = true -> String.eqb s "" = false.
Proof.
  intros H. destruct (String.eqb_spec s "") as [-> | _]; [| reflexivity].
  rewrite lower_strip_empty, pattern_rejects_empty in H. discriminate.
Qed.

(** [validate_email] never raises: an address the pattern accepts has a
    domain part. *)
Lemma validate_email_returns s : exists r, validate_email s = Ok r.
Proof.
  unfold validate_email.
  destruct (String.eqb s ""); [eexists; reflexivity |].
  destruct (email_pattern_matches (lower (strip s))) eqn:Hm; cbn [negb];
    [| eexists; reflexivity].
  destruct (email_shape _ Hm) as (l & d & _ & _ & _ & Hd). rewrite Hd.
  destruct (dict_get common_domains d); eexists; reflexivity.
Qed.

(** An address the pattern accepts whose domain part is a key of the typo
    table is rejected, its value is left as typed, and the message holds
    the address with every occurrence of the domain text replaced. *)
Lemma validate_email_typo_domain s d fixed :
  email_pattern_matches (lower (strip s)) = true ->
  domain_part (lower (strip s)) = Some d ->
  dict_get common_domains d = Some fixed ->
  validate_email s =
    Ok {| is_valid := false; value := lower (strip s);
          error := Some ("Did you mean '"
                         ++ replace (lower (strip s)) d fixed ++ "'?") |}.
Proof.
  intros Hm Hd Hf. unfold validate_email.
  rewrite (matching_input_not_empty _ Hm), Hm, Hd, Hf. reflexivity.
Qed.

(** C3, as stated, fails: ["user@gmial.com"] matches the pattern after
    trimming and lowercasing, and [validate_email] does not accept it. *)
Lemma validate_email_pattern_valid_rejected :
  ~ (forall s, email_pattern_matches (lower (strip s)) = true ->
               validate_email s =
                 Ok {| is_valid := true; value := lower (strip s);
                       error := None |}).
Proof.
  intros H. specialize (H "user@gmial.com" eq_refl).
  vm_compute in H. discriminate H.
Qed.

(** C3, amended: every input that matches the pattern after trimming and
    lowercasing, and whose domain part is not a key of the typo table, is
    accepted, with the trimmed, lowercased text as its value. *)
Theorem validate_email_accepts s :
  email_pattern_matches (lower (strip s)) = true ->
  (forall d, domain_part (lower (strip s)) = Some d ->
             dict_get common_domains d = None) ->
  validate_email s =
    Ok {| is_valid := true; value := lower (strip s); error := None |}.
Proof.
  intros Hm Hd. unfold validate_email.
  rewrite (matching_input_not_empty _ Hm), Hm. cbn [negb].
  destruct (email_shape _ Hm) as (l & d & _ & _ & _ & Hp).
  rewrite Hp, (Hd _ Hp). reflexivity.
Qed.

Lemma validate_email_accepts_witness :
  validate_email "  Analyst@Example.COM " =
    Ok {| is_valid := true; value := "analyst@example.com"; error := None |}.
Proof.
  apply (validate_email_accepts "  Analyst@Example.COM ").
  - reflexivity.
  - intros d Hd. vm_compute in Hd. injection Hd as <-. reflexivity.
Defined.

(** C5: at ["gmial.com@gmial.com"], which the pattern accepts and whose
    domain part is in the typo table, the suggestion is not the address
    with its domain corrected, ["gmial.com@gmail.com"]: the local part is
    rewritten too. *)
Theorem validate_email_suggestion_rewrites_local_part :
  email_pattern_matches "gmial.com@gmial.com" = true /\
  domain_part "gmial.com@gmial.com" = Some "gmial.com" /\
  dict_get common_domains "gmial.com" = Some "gmail.com" /\
  validate_email "gmial.com@gmial.com" =
    Ok {| is_valid := false; value := "gmial.com@gmial.com";
          error := Some "Did you mean 'gmail.com@gmail.com'?" |} /\
  validate_email "gmial.com@gmial.com" <>
    Ok {| is_valid := false; value := "gmial.com@gmial.com";
          error := Some "Did you mean 'gmial.com@gmail.com'?" |}.
Proof.
  repeat split; try reflexivity.
  vm_compute. discriminate.
Qed.

(** The literal of the specification: ["user@gmial.com"] is rejected with
    a suggestion of ["user@gmail.com"]. *)
Lemma validate_email_gmial :
  validate_email "user@gmial.com" =
    Ok {| is_valid := false; value := "user@gmial.com";
          error := Some "Did you mean 'user@gmail.com'?" |}.
Proof. reflexivity. Qed.

(** C10: for a non-empty input, the length checks of [validate_topic] look
    at the sanitised text (trimmed, every whitespace run one space), the
    value of the result is that text whatever the verdict, and an input of
    six characters fails the minimum length of five. *)
Theorem validate_topic_checks_sanitized topic min_length max_length :
  topic <> "" ->
  normalized (sanitize_topic topic) /\
  value (validate_topic topic min_length max_length) = sanitize_topic topic /\
  (len (sanitize_topic topic) < min_length ->
   validate_topic topic min_length max_length =
     {| is_valid := false; value := sanitize_topic topic;
        error := Some (min_length_error min_length) |}) /\
  (min_length <= len (sanitize_topic topic) ->
   max_length < len (sanitize_topic topic) ->
   validate_topic topic min_length max_length =
     {| is_valid := false; value := sanitize_topic topic;
        error := Some (max_length_error max_length) |}) /\
  (min_length <= len (sanitize_topic topic) <= max_length ->
   is_valid (validate_topic topic min_length max_length) =
     negb (existsb (fun pattern => search pattern (sanitize_topic topic))
                   dangerous_patterns)) /\
  (5 <= len "a    b" /\
   validate_topic "a    b" 5 500 =
     {| is_valid := false; value := "a b";
        error := Some "Topic must be at least 5 characters long" |}).
Proof.
  intros Hne.
  assert (He : String.eqb topic "" = false) by now apply String.eqb_neq.
  split; [apply sanitize_topic_normalized |].
  unfold validate_topic, min_length_error, max_length_error.
  rewrite He. fold (sanitize_topic topic).
  set (t := sanitize_topic topic).
  repeat split.
  - destruct (len t <? min_length); [reflexivity |].
    destruct (len t >? max_length); [reflexivity |].
    destruct (existsb _ _); reflexivity.
  - intros H. apply Z.ltb_lt in H. now rewrite H.
  - intros H1 H2. apply Z.ltb_ge in H1. rewrite H1.
    rewrite Z.gtb_ltb. apply Z.ltb_lt in H2. now rewrite H2.
  - intros [H1 H2]. apply Z.ltb_ge in H1. rewrite H1.
    rewrite Z.gtb_ltb. apply Z.ltb_ge in H2. rewrite H2.
    destruct (existsb _ _); reflexivity.
  - vm_compute. discriminate.
Qed.

Lemma validate_topic_checks_sanitized_witness :
  "a    b" <> "" /\
  validate_topic "a    b" 5 500 =
    {| is_valid := false; value := "a b";
       error := Some "Topic must be at least 5 characters long" |}.
Proof.
  assert (Hne : "a    b" <> "") by discriminate.
  split; [exact Hne |].
  destruct (validate_topic_checks_sanitized "a    b" 5 500 Hne)
    as (_ & _ & Hmin & _).
  exact (Hmin eq_refl).
Defined.

End ValidatorsFacts.

(** ** Configuration *)

Module ConfigFacts.
Import Config.

Lemma configured_validated : validated configured.
Proof. unfold validated; simpl. repeat split; try lia; discriminate. Qed.

Lemma blank_key_settings_validated : validated blank_key_settings.
Proof. unfold validated; simpl. repeat split; try lia; discriminate. Qed.

Lemma py_not_unset x : x <> Some "" -> py_not x = unset x.
Proof.
  destruct x as [v |]; [| reflexivity]. intros H. simpl.
  destruct (String.eqb_spec v ""); [subst; contradiction | reflexivity].
Qed.

(** When no required setting is the empty string, the check returns the
    names of the settings that are not set, whichever way absence is read. *)
Lemma get_missing_keys_exact s :
  no_empty_values s ->
  get_missing_keys s = missing_by_spec unset s /\
  get_missing_keys s = missing_by_spec py_not s.
Proof.
  intros (Hk & Hs & Hu & Hp).
  unfold missing_by_spec.
  rewrite (py_not_unset _ Hk), (py_not_unset _ Hs), (py_not_unset _ Hu),
    (py_not_unset _ Hp).
  split; unfold get_missing_keys, validate_required_keys, unset; cbn [llm search email];
    rewrite (py_not_unset _ Hu), (py_not_unset _ Hp); unfold unset;
    destruct (current_api_key s), (serper_api_key s), (email_user s),
      (email_pass s), (llm_provider s); reflexivity.
Qed.

(** C8: with the LLM key and the email user set to the empty string and the
    email password not set, the check names the email user and password but
    not the LLM key; the settings that are not set are the password alone,
    and those that are not set or empty are all three. *)
Theorem get_missing_keys_mixes_unset_and_empty :
  validated blank_key_settings /\
  get_missing_keys blank_key_settings = ["EMAIL_USER"; "EMAIL_PASS"] /\
  missing_by_spec unset blank_key_settings = ["EMAIL_PASS"] /\
  missing_by_spec py_not blank_key_settings =
    ["GOOGLE_API_KEY"; "EMAIL_USER"; "EMAIL_PASS"].
Proof.
  split; [apply blank_key_settings_validated |].
  repeat split; reflexivity.
Qed.

End ConfigFacts.

(** ** Agent factory *)

Module AgentsFacts.
Import Config Agents.

Lemma get_llm_wf settings cls :
  factory_wf cls -> factory_wf (snd (get_llm settings cls)).
Proof.
  unfold get_llm, factory_wf.
  destruct (_llm_instance cls) as [inst |] eqn:Hc; simpl.
  - now rewrite Hc.
  - intros _. lia.
Qed.

Lemma reset_llm_wf cls : factory_wf (reset_llm cls).
Proof. exact I. Qed.

Lemma get_llm_cached_after settings cls :
  _llm_instance (snd (get_llm settings cls)) = Some (fst (get_llm settings cls)).
Proof.
  unfold get_llm. destruct (_llm_instance cls) eqn:Hc; simpl; auto.
Qed.

(** C1, as stated, fails: with the default iteration cap of 5 the agent
    built by the Email-Sender constructor has a maximum of 5 iterations. *)
Lemma create_email_agent_default_cap :
  ~ (forall settings cls,
       validated settings ->
       max_iter (fst (create_email_agent settings cls)) = 2).
Proof.
  intros H.
  specialize (H configured initial_factory ConfigFacts.configured_validated).
  vm_compute in H. discriminate H.
Qed.

(** C1, amended: the Email-Sender constructor asks for the email tool, two
    iterations and no delegation; the agent it builds has the email tool
    and no delegation, and its maximum iteration count is the configured
    cap when that is not zero, which validation ensures, so it is 2 exactly
    when the configured cap is 2. *)
Theorem create_email_agent_profile settings cls :
  cfg_tools email_agent_config = [create_email_tool] /\
  cfg_max_iter email_agent_config = 2 /\
  cfg_allow_delegation email_agent_config = false /\
  tools (fst (create_email_agent settings cls)) = [create_email_tool] /\
  allow_delegation (fst (create_email_agent settings cls)) = false /\
  max_iter (fst (create_email_agent settings cls)) =
    int_or (max_agent_iterations settings) 2 /\
  (validated settings ->
   max_iter (fst (create_email_agent settings cls)) =
     max_agent_iterations settings) /\
  (validated settings ->
   (max_iter (fst (create_email_agent settings cls)) = 2 <->
    max_agent_iterations settings = 2)).
Proof.
  unfold create_email_agent, create_agent.
  destruct (get_llm settings cls) as [the_llm cls'].
  cbn [fst max_iter tools allow_delegation email_agent_config cfg_tools
       cfg_max_iter cfg_allow_delegation].
  assert (Hv : validated settings ->
               int_or (max_agent_iterations settings) 2 =
                 max_agent_iterations settings).
  { intros (_ & Hi & _). unfold int_or.
    destruct (Z.eqb_spec (max_agent_iterations settings) 0); [lia | reflexivity]. }
  do 6 (split; [reflexivity |]).
  split; [exact Hv |].
  intros Hok. rewrite (Hv Hok). tauto.
Qed.

(** With the default cap of 5, the email agent is given 5 iterations. *)
Lemma create_email_agent_profile_witness :
  max_iter (fst (create_email_agent configured initial_factory)) = 5.
Proof.
  exact (proj1 (proj2 (proj2 (proj2 (proj2 (proj2 (proj2
           (create_email_agent_profile configured initial_factory)))))))
           ConfigFacts.configured_validated).
Defined.

(** C6: two calls of the accessor with no reset in between return the same
    object, the second constructing nothing; after a reset the next call
    constructs an object, caches it, and this object is not the earlier
    one. *)
Theorem get_llm_cached_until_reset s1 s2 s3 cls :
  factory_wf cls ->
  let first := get_llm s1 cls in
  let second := get_llm s2 (snd first) in
  let third := get_llm s3 (reset_llm (snd second)) in
  fst second = fst first /\
  snd second = snd first /\
  constructed (snd third) = S (constructed (snd second)) /\
  obj_id (fst third) = constructed (snd second) /\
  obj_id (fst third) <> obj_id (fst first) /\
  _llm_instance (snd third) = Some (fst third).
Proof.
  intros Hwf first second third.
  assert (Hc : _llm_instance (snd first) = Some (fst first))
    by apply get_llm_cached_after.
  assert (Hw1 : factory_wf (snd first)) by now apply get_llm_wf.
  assert (H2 : get_llm s2 (snd first) = (fst first, snd first)).
  { unfold get_llm at 1. now rewrite Hc. }
  unfold third, second. rewrite H2. cbn [fst snd].
  unfold get_llm at 1, reset_llm. cbn.
  repeat split; auto.
  unfold factory_wf in Hw1. rewrite Hc in Hw1. lia.
Qed.

Lemma get_llm_cached_until_reset_witness :
  let first := get_llm Config.configured initial_factory in
  let second := get_llm Config.configured (snd first) in
  fst second = fst first.
Proof.
  exact (proj1 (get_llm_cached_until_reset Config.configured Config.configured
                  Config.configured initial_factory I)).
Defined.

End AgentsFacts.

(** ** Workflow *)

Module CrewServiceFacts.
Import PyStr Config Agents CrewService.


Ltac run_step :=
  unfold bind, call, ret, raise, try_except, _update_progress, invoke,
    task_logger_start, task_logger_progress, task_logger_success,
    task_logger_error, datetime_now, emit, set_logger_start_time,
    get_logger_start_time; cbn [fst snd].

Lemma workflow_success E topic recipient_email report_format num_results c
      result w :
  callback_returns E ->
  crew_of E topic recipient_email report_format num_results c ->
  kickoff (ext E) c = Ok result ->
  fst (execute_research_workflow E topic recipient_email report_format
         num_results w) =
    Ok {| success := true;
          research_output := fst (fst (extract_outputs result));
          summary_output := snd (fst (extract_outputs result));
          email_output := snd (extract_outputs result);
          error_message := None;
          execution_time :=
            now_at E (clock_reads w + 2) - now_at E (clock_reads w);
          timestamp := now_at E (clock_reads w + 4) |} /\
  progress_calls
    (snd (execute_research_workflow E topic recipient_email report_format
            num_results w)) = calls_after E w.
Proof.
  intros Hcb (r & sm & em & rt & st & et & H1 & H2 & H3 & H4 & H5 & H6 & -> & H7)
    Hk.
  unfold execute_research_workflow, calls_after, callback_returns in *.
  run_step.
  destruct (progress_callback E) as [cb |].
  - rewrite !Hcb. cbn. rewrite H1, H2, H3. cbn. rewrite H4, H5, H6. cbn.
    rewrite H7. cbn. rewrite Hk. cbn.
    destruct (extract_outputs result) as [[ro so] eo]. cbn.
    replace (clock_reads w + 2)%nat with (S (S (clock_reads w))) by lia.
    replace (clock_reads w + 4)%nat with (S (S (S (S (clock_reads w))))) by lia.
    split; [reflexivity |].
    unfold milestones. rewrite <- !app_assoc. reflexivity.
  - cbn. rewrite H1, H2, H3. cbn. rewrite H4, H5, H6. cbn.
    rewrite H7. cbn. rewrite Hk. cbn.
    destruct (extract_outputs result) as [[ro so] eo]. cbn.
    replace (clock_reads w + 2)%nat with (S (S (clock_reads w))) by lia.
    replace (clock_reads w + 4)%nat with (S (S (S (S (clock_reads w))))) by lia.
    split; reflexivity.
Qed.

Lemma workflow_failure E topic recipient_email report_format num_results c
      e w :
  callback_returns E ->
  crew_of E topic recipient_email report_format num_results c ->
  kickoff (ext E) c = Raise e ->
  execute_research_workflow E topic recipient_email report_format
    num_results w =
    if exn_is_Exception e then
      (Ok (failure_record (exn_str e)
             (now_at E (clock_reads w + 2) - now_at E (clock_reads w))
             (now_at E (clock_reads w + 3))),
       {| clock_reads := clock_reads w + 4;
          logger_start_time := now_at E (clock_reads w + 1);
          log := (log w
                  ++ [log_start ("Starting research workflow for: "
                                 ++ take 50 topic ++ "...");
                      log_progress "Assembling AI research team..." (Some 10);
                      log_progress "Configuring research tasks..." (Some 25);
                      log_progress "Initiating research process..." (Some 40);
                      log_progress "AI agents working on research..." (Some 50);
                      log_error "Workflow failed" e])%list;
          progress_calls :=
            match progress_callback E with
            | Some _ => (progress_calls w ++ firstn 4 milestones)%list
            | None => progress_calls w
            end |})
    else
      (Raise e,
       {| clock_reads := clock_reads w + 2;
          logger_start_time := now_at E (clock_reads w + 1);
          log := (log w
                  ++ [log_start ("Starting research workflow for: "
                                 ++ take 50 topic ++ "...");
                      log_progress "Assembling AI research team..." (Some 10);
                      log_progress "Configuring research tasks..." (Some 25);
                      log_progress "Initiating research process..." (Some 40);
                      log_progress "AI agents working on research..." (Some 50)])%list;
          progress_calls :=
            match progress_callback E with
            | Some _ => (progress_calls w ++ firstn 4 milestones)%list
            | None => progress_calls w
            end |}).
Proof.
  intros Hcb (r & sm & em & rt & st & et & H1 & H2 & H3 & H4 & H5 & H6 & -> & H7)
    Hk.
  unfold execute_research_workflow, callback_returns, failure_record in *.
  run_step.
  replace (clock_reads w + 1)%nat with (S (clock_reads w)) by lia.
  replace (clock_reads w + 2)%nat with (S (S (clock_reads w))) by lia.
  replace (clock_reads w + 3)%nat with (S (S (S (clock_reads w)))) by lia.
  replace (clock_reads w + 4)%nat with (S (S (S (S (clock_reads w))))) by lia.
  destruct (progress_callback E) as [cb |].
  - rewrite !Hcb. cbn. rewrite H1, H2, H3. cbn. rewrite H4, H5, H6. cbn.
    rewrite H7. cbn. rewrite Hk. cbn.
    destruct (exn_is_Exception e); cbn; rewrite <- !app_assoc; reflexivity.
  - cbn. rewrite H1, H2, H3. cbn. rewrite H4, H5, H6. cbn.
    rewrite H7. cbn. rewrite Hk. cbn.
    destruct (exn_is_Exception e); cbn; rewrite <- ?app_assoc; reflexivity.
Qed.

Lemma scripted_crew clock cb k topic recipient_email report_format num_results :
  exists c,
    crew_of (scripted_env clock cb k) topic recipient_email report_format
      num_results c.
Proof.
  unfold crew_of. eexists. do 6 eexists.
  repeat (split; [reflexivity |]). reflexivity.
Qed.

(** An exception that does not derive from [Exception] reaches the caller. *)
Lemma workflow_base_exception_propagates E topic recipient_email report_format
      num_results c e w :
  callback_returns E ->
  crew_of E topic recipient_email report_format num_results c ->
  kickoff (ext E) c = Raise e ->
  exn_is_Exception e = false ->
  fst (execute_research_workflow E topic recipient_email report_format
         num_results w) = Raise e.
Proof.
  intros Hcb Hc Hk He.
  rewrite (workflow_failure _ _ _ _ _ _ _ w Hcb Hc Hk), He. reflexivity.
Qed.

(** C2, as stated, fails: when the engine raises [Exception()], the record
    the caller receives has an empty error message. *)
Lemma workflow_failure_empty_message :
  ~ (forall E topic recipient_email report_format num_results c e w,
       callback_returns E ->
       crew_of E topic recipient_email report_format num_results c ->
       kickoff (ext E) c = Raise e ->
       exists r w',
         execute_research_workflow E topic recipient_email report_format
           num_results w = (Ok r, w') /\
         success r = false /\
         (exists m, error_message r = Some m /\ m <> "" /\ m = exn_str e) /\
         0 < execution_time r).
Proof.
  intros H.
  destruct (scripted_crew (fun k => 1000 * Z.of_nat k) None
              (Raise bare_Exception) "Electric vehicle battery trends 2025"
              "analyst@example.com" "Executive Brief" 3) as [c Hc].
  destruct (H (scripted_env (fun k => 1000 * Z.of_nat k) None
                 (Raise bare_Exception)) _ _ _ _ c bare_Exception
              initial_world I Hc eq_refl)
    as (r & w' & Hrun & _ & (m & Hm & Hne & _) & _).
  vm_compute in Hrun. injection Hrun as <- _.
  cbn in Hm. injection Hm as <-. now apply Hne.
Qed.

(** C2, amended: when the builders and the callback return and the engine
    raises an exception that derives from [Exception], the caller receives
    a record with [success] false, no stage output, the text of the
    exception (which may be empty) as error message, and as elapsed time
    the clock reading in the handler minus the reading at the start, which
    is positive exactly when the clock advanced between the two. *)
Theorem workflow_failure_record E topic recipient_email report_format
      num_results c e w :
  callback_returns E ->
  crew_of E topic recipient_email report_format num_results c ->
  kickoff (ext E) c = Raise e ->
  exn_is_Exception e = true ->
  exists r w',
    execute_research_workflow E topic recipient_email report_format
      num_results w = (Ok r, w') /\
    r = failure_record (exn_str e)
          (now_at E (clock_reads w + 2) - now_at E (clock_reads w))
          (now_at E (clock_reads w + 3)) /\
    success r = false /\
    error_message r = Some (exn_str e) /\
    (0 < execution_time r <->
     now_at E (clock_reads w) < now_at E (clock_reads w + 2)).
Proof.
  intros Hcb Hc Hk He.
  rewrite (workflow_failure _ _ _ _ _ _ _ w Hcb Hc Hk), He.
  do 2 eexists. split; [reflexivity |].
  split; [reflexivity |]. cbn. repeat split; lia.
Qed.

Lemma workflow_failure_record_witness :
  exists r w',
    execute_research_workflow
      (scripted_env (fun k => 1000 * Z.of_nat k) (Some (fun _ _ => None))
         (Raise {| exn_is_Exception := true; exn_str := "quota exceeded" |}))
      "Electric vehicle battery trends 2025" "analyst@example.com"
      "Executive Brief" 3 initial_world = (Ok r, w') /\
    success r = false /\
    error_message r = Some "quota exceeded" /\
    execution_time r = 2000.
Proof.
  destruct (scripted_crew (fun k => 1000 * Z.of_nat k) (Some (fun _ _ => None))
              (Raise {| exn_is_Exception := true; exn_str := "quota exceeded" |})
              "Electric vehicle battery trends 2025" "analyst@example.com"
              "Executive Brief" 3) as [c Hc].
  destruct (workflow_failure_record
              (scripted_env (fun k => 1000 * Z.of_nat k)
                 (Some (fun _ _ => None))
                 (Raise {| exn_is_Exception := true;
                           exn_str := "quota exceeded" |}))
              _ _ _ _ c
              {| exn_is_Exception := true; exn_str := "quota exceeded" |}
              initial_world (fun _ _ => eq_refl) Hc eq_refl eq_refl)
    as (r & w' & Hrun & Hr & Hs & Hm & _).
  exists r, w'. repeat split; auto.
  rewrite Hr. reflexivity.
Defined.

(** C7: when the engine returns fewer than three outputs, the run returns
    a success record whose slots hold the outputs present, by position,
    the later slots being unset. *)
Theorem workflow_short_output E topic recipient_email report_format
      num_results c outs w :
  callback_returns E ->
  crew_of E topic recipient_email report_format num_results c ->
  kickoff (ext E) c = Ok {| tasks_output := Some outs |} ->
  (List.length outs < 3)%nat ->
  fst (execute_research_workflow E topic recipient_email report_format
         num_results w) =
    Ok {| success := true;
          research_output := option_map raw (nth_error outs 0);
          summary_output := option_map raw (nth_error outs 1);
          email_output := None;
          error_message := None;
          execution_time :=
            now_at E (clock_reads w + 2) - now_at E (clock_reads w);
          timestamp := now_at E (clock_reads w + 4) |}.
Proof.
  intros Hcb Hc Hk Hlen.
  destruct (workflow_success _ _ _ _ _ _ _ w Hcb Hc Hk) as [Hr _].
  rewrite Hr.
  destruct outs as [| o1 [| o2 [| o3 outs]]]; try reflexivity.
  simpl in Hlen. lia.
Qed.

Lemma workflow_short_output_witness :
  fst (execute_research_workflow
         (scripted_env (fun k => 1000 * Z.of_nat k) (Some (fun _ _ => None))
            (Ok {| tasks_output := Some [ {| raw := "findings" |} ] |}))
         "Electric vehicle battery trends 2025" "analyst@example.com"
         "Executive Brief" 3 initial_world) =
    Ok {| success := true;
          research_output := Some "findings";
          summary_output := None;
          email_output := None;
          error_message := None;
          execution_time := 2000;
          timestamp := 4000 |}.
Proof.
  destruct (scripted_crew (fun k => 1000 * Z.of_nat k) (Some (fun _ _ => None))
              (Ok {| tasks_output := Some [ {| raw := "findings" |} ] |})
              "Electric vehicle battery trends 2025" "analyst@example.com"
              "Executive Brief" 3) as [c Hc].
  exact (workflow_short_output
           (scripted_env (fun k => 1000 * Z.of_nat k) (Some (fun _ _ => None))
              (Ok {| tasks_output := Some [ {| raw := "findings" |} ] |}))
           _ _ _ _ c [ {| raw := "findings" |} ]
           initial_world (fun _ _ => eq_refl) Hc eq_refl
           (le_S _ _ (le_n 2))).
Defined.

(** A step that raised: the handler gives a failure record, or the
    exception leaves the run; either way not a success record. *)
Ltac raised :=
  cbn;
  match goal with
  | |- context [exn_is_Exception ?e] => destruct (exn_is_Exception e)
  end;
  cbn; intros ? ? Hrun Hs; inversion Hrun; subst; discriminate Hs.

Ltac returns_or_raises t := destruct t eqn:?; cbn; [| solve [raised]].
Ltac raises_or_returns t := destruct t eqn:?; cbn; [solve [raised] |].

Ltac through_builders E :=
  match goal with
  | |- context [create_researcher_agent (ext E) ?a ?b] =>
      returns_or_raises (create_researcher_agent (ext E) a b)
  end;
  match goal with
  | |- context [create_summarizer_agent (ext E) ?a] =>
      returns_or_raises (create_summarizer_agent (ext E) a)
  end;
  returns_or_raises (create_email_agent (ext E)).

Ltac through_tasks E :=
  match goal with
  | |- context [create_research_task (ext E) ?a ?b ?c] =>
      returns_or_raises (create_research_task (ext E) a b c)
  end;
  match goal with
  | |- context [create_summarization_task (ext E) ?a ?b ?c] =>
      returns_or_raises (create_summarization_task (ext E) a b c)
  end;
  match goal with
  | |- context [create_email_task (ext E) ?a ?b ?c ?d ?e] =>
      returns_or_raises (create_email_task (ext E) a b c d e)
  end.

Ltac through_crew E :=
  match goal with
  | |- context [new_Crew (ext E) ?a] => returns_or_raises (new_Crew (ext E) a)
  end.

Ltac through_kickoff E :=
  match goal with
  | |- context [kickoff (ext E) ?a] => returns_or_raises (kickoff (ext E) a)
  end.

(** A run that returns a success record has gone through all six
    milestones. *)
Lemma success_calls E topic recipient_email report_format num_results w :
  forall r w',
    execute_research_workflow E topic recipient_email report_format
      num_results w = (Ok r, w') ->
    success r = true ->
    progress_calls w' = calls_after E w.
Proof.
  unfold execute_research_workflow, calls_after. run_step.
  destruct (progress_callback E) as [cb |]; cbn.
  - raises_or_returns (cb 10 "Assembling AI research team...").
    through_builders E.
    raises_or_returns (cb 25 "Configuring research tasks...").
    through_tasks E.
    raises_or_returns (cb 40 "Initiating research process...").
    through_crew E.
    raises_or_returns (cb 50 "AI agents working on research...").
    through_kickoff E.
    raises_or_returns (cb 90 "Finalizing results...").
    match goal with
    | |- context [extract_outputs ?x] =>
        destruct (extract_outputs x) as [[ro so] eo]
    end; cbn.
    raises_or_returns (cb 100 "Research complete!").
    intros r w' Hrun _. inversion Hrun; subst. cbn.
    unfold milestones. rewrite <- !app_assoc. reflexivity.
  - through_builders E. through_tasks E. through_crew E. through_kickoff E.
    match goal with
    | |- context [extract_outputs ?x] =>
        destruct (extract_outputs x) as [[ro so] eo]
    end; cbn.
    intros r w' Hrun _. inversion Hrun; subst. reflexivity.
Qed.

(** Without a callback, no call is recorded, however the run ends. *)
Lemma no_callback_no_calls E topic recipient_email report_format num_results w :
  progress_callback E = None ->
  progress_calls
    (snd (execute_research_workflow E topic recipient_email report_format
            num_results w)) = progress_calls w.
Proof.
  intros Hnone. unfold execute_research_workflow. run_step. rewrite Hnone. cbn.
  repeat match goal with
         | |- context [match ?o with Ok _ => _ | Raise _ => _ end] =>
             match o with
             | context [match _ with Ok _ => _ | Raise _ => _ end] => fail 1
             | _ => destruct o as [? | ex]; cbn;
                    [| destruct (exn_is_Exception ex); reflexivity]
             end
         end.
  match goal with
  | |- context [extract_outputs ?x] =>
      destruct (extract_outputs x) as [[ro so] eo]
  end; reflexivity.
Qed.

(** C9: a run that returns a success record has called the callback
    exactly at the six milestones 10, 25, 40, 50, 90, 100, in this order,
    each with its message; with no callback, no call is made, and the run
    succeeds whenever the builders and the engine return. *)
Theorem progress_milestones E topic recipient_email report_format num_results w :
  (forall cb r w',
     progress_callback E = Some cb ->
     execute_research_workflow E topic recipient_email report_format
       num_results w = (Ok r, w') ->
     success r = true ->
     progress_calls w' = (progress_calls w ++ milestones)%list) /\
  map fst milestones = [10; 25; 40; 50; 90; 100] /\
  Forall (fun m => snd m <> "") milestones /\
  (progress_callback E = None ->
   progress_calls
     (snd (execute_research_workflow E topic recipient_email report_format
             num_results w)) = progress_calls w) /\
  (progress_callback E = None ->
   forall c result,
     crew_of E topic recipient_email report_format num_results c ->
     kickoff (ext E) c = Ok result ->
     exists r,
       fst (execute_research_workflow E topic recipient_email report_format
              num_results w) = Ok r /\
       success r = true).
Proof.
  split; [| split; [| split; [| split]]].
  - intros cb r w' Hcb Hrun Hs.
    rewrite (success_calls _ _ _ _ _ _ _ _ Hrun Hs).
    unfold calls_after. now rewrite Hcb.
  - reflexivity.
  - unfold milestones. repeat constructor; discriminate.
  - apply no_callback_no_calls.
  - intros Hnone c result Hc Hk.
    assert (Hcb : callback_returns E)
      by (unfold callback_returns; now rewrite Hnone).
    destruct (workflow_success _ _ _ _ _ _ _ w Hcb Hc Hk) as [Hr _].
    eexists. split; [exact Hr | reflexivity].
Qed.

(** A complete run with a callback, evaluated with the property above. *)
Lemma progress_milestones_witness :
  progress_calls
    (snd (execute_research_workflow
            (scripted_env (fun k => 1000 * Z.of_nat k)
               (Some (fun _ _ => None))
               (Ok {| tasks_output :=
                        Some [ {| raw := "R" |}; {| raw := "S" |};
                               {| raw := "E" |} ] |}))
            "Electric vehicle battery trends 2025" "analyst@example.com"
            "Executive Brief" 3 initial_world)) = milestones.
Proof.
  pose proof (proj1 (progress_milestones
                       (scripted_env (fun k => 1000 * Z.of_nat k)
                          (Some (fun _ _ => None))
                          (Ok {| tasks_output :=
                                   Some [ {| raw := "R" |}; {| raw := "S" |};
                                          {| raw := "E" |} ] |}))
                       "Electric vehicle battery trends 2025"
                       "analyst@example.com" "Executive Brief" 3
                       initial_world)) as H.
  destruct (execute_research_workflow _ _ _ _ _ _) as [o w'] eqn:Hrun.
  pose proof Hrun as Hv. vm_compute in Hv.
  injection Hv as Ho Hw. subst o.
  exact (H (fun _ _ => None) _ w' eq_refl eq_refl eq_refl).
Defined.

End CrewServiceFacts.

(** ** Download buttons *)

Module ComponentsFacts.
Import PyStr Validators CrewService Components.

Lemma take_length n s : (String.length (take n s) <= n)%nat.
Proof.
  revert s. induction n as [| n IH]; intros [| c s]; simpl; try lia.
  specialize (IH s). lia.
Qed.

Lemma lstrip_length s : (String.length (lstrip s) <= String.length s)%nat.
Proof.
  induction s as [| c s IH]; simpl; [lia |].
  destruct (isspace c); simpl; lia.
Qed.

Lemma rstrip_length s : (String.length (rstrip s) <= String.length s)%nat.
Proof.
  induction s as [| c s IH]; simpl; [lia |].
  destruct (rstrip s); [destruct (isspace c) |]; simpl in *; lia.
Qed.

Lemma strip_length s : (String.length (strip s) <= String.length s)%nat.
Proof.
  unfold strip. pose proof (rstrip_length (lstrip s)).
  pose proof (lstrip_length s). lia.
Qed.

Lemma all_chars_take p n s :
  all_chars p s = true -> all_chars p (take n s) = true.
Proof.
  revert s. induction n as [| n IH]; intros [| c s]; simpl; auto.
  intros H. apply andb_true_iff in H as [Hc Hs]. now rewrite Hc, IH.
Qed.

Lemma all_chars_lstrip p s :
  all_chars p s = true -> all_chars p (lstrip s) = true.
Proof.
  induction s as [| c s IH]; simpl; auto.
  intros H. destruct (isspace c); [| exact H].
  apply andb_true_iff in H as [_ Hs]. auto.
Qed.

Lemma all_chars_rstrip p s :
  all_chars p s = true -> all_chars p (rstrip s) = true.
Proof.
  induction s as [| c s IH]; simpl; auto.
  intros H. apply andb_true_iff in H as [Hc Hs]. specialize (IH Hs).
  destruct (rstrip s); [destruct (isspace c) |]; simpl in *;
    rewrite ?Hc; auto.
Qed.

Lemma all_chars_strip p s :
  all_chars p s = true -> all_chars p (strip s) = true.
Proof. intros H. now apply all_chars_rstrip, all_chars_lstrip. Qed.

Lemma safe_char_allowed c : allowed (safe_char c) = true.
Proof. unfold safe_char. destruct (allowed c) eqn:Hc; [exact Hc | reflexivity]. Qed.

Lemma map_safe_allowed s : all_chars allowed (map_chars safe_char s) = true.
Proof.
  induction s as [| c s IH]; cbn [map_chars all_chars]; [reflexivity |].
  now rewrite safe_char_allowed, IH.
Qed.

(** What [safe_topic] is: at most 50 allowed characters, trimmed. *)
Lemma safe_topic_shape topic :
  (String.length (safe_topic topic) <= 50)%nat /\
  all_chars allowed (safe_topic topic) = true /\
  starts_with_space (safe_topic topic) = false /\
  ends_with_space (safe_topic topic) = false.
Proof.
  unfold safe_topic. repeat split.
  - pose proof (strip_length (take 50 (map_chars safe_char topic))).
    pose proof (take_length 50 (map_chars safe_char topic)). lia.
  - apply all_chars_strip, all_chars_take, map_safe_allowed.
  - apply ValidatorsFacts.strip_trimmed.
  - apply ValidatorsFacts.strip_trimmed.
Qed.

(** C4, as stated, fails: the topic of the example keeps its spaces in the
    file names, and a character outside the allowed ones is replaced by an
    underscore, not dropped. *)
Lemma download_names_keep_spaces :
  file_names (render_download_buttons finished_run
                "Electric vehicle battery trends 2025") <>
    ["research_report_Electric_vehicle_battery_trends_2025.md";
     "summary_Electric_vehicle_battery_trends_2025.md"] /\
  file_names (render_download_buttons finished_run "AI: what's next?") <>
    ["research_report_" ++ safe_topic_by_spec "AI: what's next?" ++ ".md";
     "summary_" ++ safe_topic_by_spec "AI: what's next?" ++ ".md"].
Proof. split; vm_compute; discriminate. Qed.

(** C4, amended: for a successful run, each report that is set and not
    empty is offered under its prefix, the sanitised topic and [.md], where
    the sanitised topic is the topic with every character that is not
    alphanumeric, space, hyphen or underscore replaced by an underscore,
    cut to 50 characters and trimmed; the topic of the example gives names
    that keep its spaces. *)
Theorem download_file_names result topic :
  success result = true ->
  file_names (render_download_buttons result topic) =
    offered_names result topic /\
  safe_topic topic = strip (take 50 (map_chars safe_char topic)) /\
  (String.length (safe_topic topic) <= 50)%nat /\
  all_chars allowed (safe_topic topic) = true /\
  starts_with_space (safe_topic topic) = false /\
  ends_with_space (safe_topic topic) = false /\
  file_names (render_download_buttons finished_run
                "Electric vehicle battery trends 2025") =
    ["research_report_Electric vehicle battery trends 2025.md";
     "summary_Electric vehicle battery trends 2025.md"].
Proof.
  intros Hs.
  split.
  { unfold render_download_buttons, offered_names. rewrite Hs. cbn [negb].
    destruct (truthy (research_output result)),
             (truthy (summary_output result)); reflexivity. }
  split; [reflexivity |].
  destruct (safe_topic_shape topic) as (H1 & H2 & H3 & H4).
  repeat split; auto.
Qed.

Lemma download_file_names_witness :
  file_names (render_download_buttons finished_run "AI: what's next?") =
    ["research_report_AI_ what_s next_.md"; "summary_AI_ what_s next_.md"].
Proof.
  destruct (download_file_names finished_run "AI: what's next?" eq_refl)
    as [H _].
  rewrite H. reflexivity.
Defined.

(** A failed run offers nothing. *)
Lemma failed_run_no_buttons result topic :
  success result = false -> render_download_buttons result topic = [].
Proof. intros H. unfold render_download_buttons. now rewrite H. Qed.

End ComponentsFacts.

(** ** Regular expressions: the matcher decides the language *)

Module ReComplete.
Import Re ReFacts.

Lemma append_eq_nil (s t : string) : s ++ t = "" -> s = "" /\ t = "".
Proof. destruct s; simpl; [auto | discriminate]. Qed.

Lemma Lang_nullable r s : Lang r s -> s = "" -> nullable r = true.
Proof.
  induction 1; simpl; intros Hs; try reflexivity; try discriminate.
  - apply append_eq_nil in Hs as [-> ->]. now rewrite IHLang1, IHLang2.
  - now rewrite IHLang.
  - rewrite IHLang by assumption. apply orb_true_r.
Qed.

Lemma Lang_deriv r u :
  Lang r u -> forall c s, u = String c s -> Lang (deriv c r) s.
Proof.
  induction 1; intros x v Hu; simpl.
  - discriminate.
  - injection Hu as -> <-. rewrite H. constructor.
  - destruct s as [| y s'].
    + simpl in Hu. subst t.
      rewrite (Lang_nullable _ _ H eq_refl).
      apply LAltR. now apply IHLang2.
    + simpl in Hu. injection Hu as -> <-.
      assert (Hc : Lang (Cat (deriv x a) b) (s' ++ t))
        by (constructor; auto).
      destruct (nullable a); [now apply LAltL | exact Hc].
  - apply LAltL. auto.
  - apply LAltR. auto.
  - discriminate.
  - destruct s as [| y s'].
    + simpl in Hu. subst t. simpl in IHLang2. now apply IHLang2.
    + simpl in Hu. injection Hu as -> <-. constructor; auto.
Qed.

Lemma Lang_accepts s : forall r, Lang r s -> accepts r s = true.
Proof.
  induction s as [| c s IH]; simpl; intros r H.
  - now apply (Lang_nullable r "").
  - apply IH. now apply (Lang_deriv r (String c s)).
Qed.

(** The matcher decides the language of the regex. *)
Lemma accepts_iff r s : accepts r s = true <-> Lang r s.
Proof. split; [apply accepts_Lang | apply Lang_accepts]. Qed.

Lemma Lang_star_any s : Lang (Star any) s.
Proof.
  induction s as [| c s IH]; [constructor |].
  change (String c s) with (String c "" ++ s).
  constructor; [now constructor | exact IH].
Qed.

(** [re.search] finds a pattern exactly when some substring is in its
    language. *)
Lemma search_iff r s :
  search r s = true <-> exists a w b, s = a ++ w ++ b /\ Lang r w.
Proof.
  unfold search. rewrite accepts_iff. split.
  - intros H. inversion H as [| | ? ? a rest Ha Hrest | | | |]; subst.
    inversion Hrest as [| | ? ? w b Hw Hb | | | |]; subst.
    now exists a, w, b.
  - intros (a & w & b & -> & Hw).
    constructor; [apply Lang_star_any |].
    constructor; [exact Hw | apply Lang_star_any].
Qed.

Lemma Lang_word_lit_i pat : forall w,
  Lang (word lit_i pat) w <-> PyStr.lower w = pat.
Proof.
  induction pat as [| c pat IH]; intros w; simpl.
  - split.
    + intros H. inversion H. reflexivity.
    + destruct w; [constructor | discriminate].
  - split.
    + intros H. inversion H as [| | ? ? h t Hh Ht | | | |]; subst.
      unfold lit_i in Hh. inversion Hh; subst.
      apply IH in Ht. simpl. rewrite Ht.
      match goal with X : Ascii.eqb _ _ = true |- _ =>
        apply Ascii.eqb_eq in X; now rewrite X end.
    + destruct w as [| x w]; [discriminate |]. simpl. intros [= Hx Hw].
      change (String x w) with (String x "" ++ w).
      constructor; [| now apply IH].
      unfold lit_i. constructor. now apply Ascii.eqb_eq.
Qed.

End ReComplete.

(** ** Strings: trimming, lowering and collapsing *)

Module StrFacts.
Import PyStr Re ReFacts Validators ValidatorsFacts.

Lemma isspace_lower c : isspace (lower_char c) = isspace c.
Proof. destruct c as [[] [] [] [] [] [] [] []]; reflexivity. Qed.

Lemma lower_char_idem c : lower_char (lower_char c) = lower_char c.
Proof. destruct c as [[] [] [] [] [] [] [] []]; reflexivity. Qed.

Lemma lower_idem s : lower (lower s) = lower s.
Proof.
  induction s as [| c s IH]; cbn [lower]; [reflexivity |].
  now rewrite lower_char_idem, IH.
Qed.

Lemma lower_nil s : lower s = "" <-> s = "".
Proof. destruct s; cbn [lower]; split; intros H; try reflexivity; discriminate. Qed.

Lemma lstrip_lower s : lstrip (lower s) = lower (lstrip s).
Proof.
  induction s as [| c s IH]; cbn [lower lstrip]; [reflexivity |].
  rewrite isspace_lower. destruct (isspace c); [exact IH | reflexivity].
Qed.

Lemma rstrip_lower s : rstrip (lower s) = lower (rstrip s).
Proof.
  induction s as [| c s IH]; cbn [lower rstrip]; [reflexivity |].
  rewrite IH, isspace_lower.
  destruct (rstrip s); cbn [lower]; [destruct (isspace c) |]; reflexivity.
Qed.

Lemma strip_lower s : strip (lower s) = lower (strip s).
Proof. unfold strip. now rewrite lstrip_lower, rstrip_lower. Qed.

Lemma lstrip_fixed s : starts_with_space s = false -> lstrip s = s.
Proof. destruct s as [| c s]; cbn; [reflexivity |]. now intros ->. Qed.

Lemma last_char_None s : last_char s = None -> s = "".
Proof.
  destruct s as [| c s]; [reflexivity |]. cbn.
  destruct (last_char s); discriminate.
Qed.

Lemma rstrip_fixed s : ends_with_space s = false -> rstrip s = s.
Proof.
  unfold ends_with_space.
  induction s as [| c s IH]; cbn [rstrip last_char]; [reflexivity |].
  destruct (last_char s) as [x |] eqn:Hl; intros Hx.
  - rewrite (IH Hx). destruct s; [discriminate | reflexivity].
  - apply last_char_None in Hl. subst s. cbn. now rewrite Hx.
Qed.

Lemma strip_fixed s :
  starts_with_space s = false -> ends_with_space s = false -> strip s = s.
Proof.
  intros Hs He. unfold strip. rewrite (lstrip_fixed _ Hs). now apply rstrip_fixed.
Qed.

Lemma strip_idem s : strip (strip s) = strip s.
Proof. destruct (strip_trimmed s). now apply strip_fixed. Qed.

Lemma lstrip_blank s : all_chars isspace s = true -> lstrip s = "".
Proof.
  induction s as [| c s IH]; cbn [all_chars lstrip]; [reflexivity |].
  intros H. apply andb_true_iff in H as [Hc Hs]. rewrite Hc. auto.
Qed.

Lemma strip_blank s : all_chars isspace s = true -> strip s = "".
Proof. intros H. unfold strip. now rewrite (lstrip_blank _ H). Qed.

Lemma length_append (s t : string) :
  String.length (s ++ t) = (String.length s + String.length t)%nat.
Proof. induction s; simpl; auto. Qed.



(** A text with single plain spaces only is left as it is by [re.sub]. *)
Lemma sub_spaces_fixed s :
  has_space_run s = false ->
  all_chars (fun c => negb (isspace c) || Ascii.eqb c " "%char) s = true ->
  sub_spaces false s = s /\
  (starts_with_space s = false -> sub_spaces true s = s).
Proof.
  induction s as [| c s IH]; cbn [has_space_run all_chars sub_spaces starts_with_space];
    [auto |].
  intros Hr Ha.
  apply orb_false_iff in Hr as [Hcs Hr].
  apply andb_true_iff in Ha as [Hc Ha].
  destruct (IH Hr Ha) as [IH0 IH1].
  destruct (isspace c) eqn:Hsp.
  - cbn [negb orb andb] in Hc, Hcs. apply Ascii.eqb_eq in Hc. subst c.
    rewrite (IH1 Hcs). split; [reflexivity | discriminate].
  - rewrite IH0. split; reflexivity.
Qed.

Lemma sanitize_fixed t : normalized t -> sanitize_topic t = t.
Proof.
  intros (Hs & He & Hr & Ha). unfold sanitize_topic.
  rewrite (strip_fixed _ Hs He). now apply sub_spaces_fixed.
Qed.

Lemma sanitize_idem topic :
  sanitize_topic (sanitize_topic topic) = sanitize_topic topic.
Proof. apply sanitize_fixed, sanitize_topic_normalized. Qed.

End StrFacts.

(** ** Validators: verdicts and fixed points *)

Module ValidatorsMore.
Import PyStr Re ReFacts ReComplete Validators ValidatorsFacts StrFacts.

Lemma email_split e :
  email_pattern_matches e = true ->
  exists l d,
    e = l ++ String "@"%char d /\ split "@"%char e = [l; d] /\
    Forall_chars (fun c => c <> "@"%char) l /\
    Forall_chars (fun c => c <> "@"%char) d.
Proof.
  intros H. destruct (email_shape _ H) as (l & d & -> & Hl & Hd & _).
  exists l, d. repeat split; auto.
  now rewrite (split_app _ _ _ Hl), (split_no_sep _ _ Hd).
Qed.

(** X2.  What decides the verdict of [validate_email], and what an accepted
    address looks like. *)
Theorem validate_email_verdict s r :
  validate_email s = Ok r ->
  (is_valid r = true <->
   email_pattern_matches (lower (strip s)) = true /\
   forall d, domain_part (lower (strip s)) = Some d ->
             dict_get common_domains d = None) /\
  (is_valid r = true ->
   value r = lower (strip s) /\ error r = None /\
   exists l d, value r = l ++ String "@"%char d /\
               split "@"%char (value r) = [l; d] /\
               dict_get common_domains d = None).
Proof.
  unfold validate_email.
  destruct (String.eqb_spec s "") as [-> | Hne].
  { intros [= <-]. cbn [is_valid]. split; [split |]; try discriminate.
    intros [H _]. discriminate H. }
  destruct (email_pattern_matches (lower (strip s))) eqn:Hm; cbn [negb].
  2:{ intros [= <-]. cbn [is_valid]. split; [split |]; try discriminate.
      intros [H _]. discriminate H. }
  destruct (email_split _ Hm) as (l & d & He & Hsp & _ & _).
  assert (Hd : domain_part (lower (strip s)) = Some d)
    by (unfold domain_part; now rewrite Hsp).
  rewrite Hd.
  destruct (dict_get common_domains d) as [fixed |] eqn:Hf; intros [= <-];
    cbn [is_valid value error].
  - split; [split |]; try discriminate.
    intros [_ H]. rewrite (H _ eq_refl) in Hf. discriminate.
  - split; [split |]; auto.
    + intros _. split; [reflexivity |].
      intros d' Hd'. now injection Hd' as <-.
    + intros _. repeat split. exists l, d. repeat split; auto.
Qed.

Lemma validate_email_verdict_witness :
  is_valid {| is_valid := true; value := "analyst@example.com"; error := None |}
    = true <->
  email_pattern_matches (lower (strip "Analyst@Example.com ")) = true /\
  forall d, domain_part (lower (strip "Analyst@Example.com ")) = Some d ->
            dict_get common_domains d = None.
Proof.
  exact (proj1 (validate_email_verdict "Analyst@Example.com "
                  {| is_valid := true; value := "analyst@example.com";
                     error := None |} eq_refl)).
Defined.

(** X3.  Validating the trimmed, lowercased form of an input gives the result
    of validating the input, unless that form is empty. *)
Theorem validate_email_idempotent s :
  lower (strip s) <> "" ->
  validate_email (lower (strip s)) = validate_email s.
Proof.
  intros Hne.
  assert (Hs : String.eqb s "" = false).
  { apply String.eqb_neq. intros ->. now apply Hne. }
  assert (He : String.eqb (lower (strip s)) "" = false)
    by now apply String.eqb_neq.
  unfold validate_email at 1 2.
  rewrite Hs, He, strip_lower, strip_idem, lower_idem. reflexivity.
Qed.

Lemma validate_email_idempotent_witness :
  validate_email (lower (strip "  Analyst@Example.COM ")) =
  validate_email "  Analyst@Example.COM ".
Proof.
  apply validate_email_idempotent. discriminate.
Defined.

(** X4.  An input of whitespace only is not reported as missing: it fails the
    format check, with the empty string as value. *)
Theorem validate_email_blank s :
  s <> "" -> all_chars isspace s = true ->
  validate_email s =
    Ok {| is_valid := false; value := "";
          error := Some "Invalid email format. Please enter a valid email address." |}.
Proof.
  intros Hne Hb. apply String.eqb_neq in Hne.
  unfold validate_email. rewrite Hne, (strip_blank _ Hb). reflexivity.
Qed.

Lemma validate_email_blank_witness :
  validate_email "   " =
    Ok {| is_valid := false; value := "";
          error := Some "Invalid email format. Please enter a valid email address." |}.
Proof.
  apply validate_email_blank; [discriminate | reflexivity].
Defined.

End ValidatorsMore.

(** ** Validators: suggestions and numbers *)

Module ValidatorsMore2.
Import PyStr Re ReFacts ReComplete Validators ValidatorsFacts StrFacts ValidatorsMore.

Lemma replace_from_skip_all old new s :
  replace_from old new (String.length s) s = "".
Proof. induction s as [| c s IH]; cbn; auto. Qed.

Lemma prefix_refl s : String.prefix s s = true.
Proof.
  induction s as [| c s IH]; cbn; [reflexivity |].
  destruct (ascii_dec c c); [exact IH | contradiction].
Qed.

Lemma prefix_before_at d : forall l r,
  Forall_chars (fun c => c <> "@"%char) d ->
  String.prefix d (l ++ String "@"%char r) = true ->
  exists b, l = d ++ b.
Proof.
  induction d as [| c d IH]; intros l r Hd Hp.
  - now exists l.
  - destruct Hd as [Hc Hd]. destruct l as [| x l]; cbn in Hp.
    + destruct (ascii_dec c "@"); [contradiction | discriminate].
    + destruct (ascii_dec c x) as [-> | _]; [| discriminate].
      destruct (IH _ _ Hd Hp) as [b ->]. now exists b.
Qed.

Lemma replace_nonempty s old new :
  old <> "" -> replace s old new = replace_from old new O s.
Proof. unfold replace. destruct old; [congruence | reflexivity]. Qed.

Lemma replace_from_self old new :
  old <> "" -> replace_from old new O old = new.
Proof.
  intros Hne. destruct old as [| c r] eqn:E; [congruence |].
  cbn [replace_from]. rewrite prefix_refl.
  replace (String.length (String c r) - 1)%nat with (String.length r)
    by (cbn [String.length]; lia).
  now rewrite replace_from_skip_all, append_nil_r.
Qed.

Lemma prefix_at_false d r :
  d <> "" -> Forall_chars (fun c => c <> "@"%char) d ->
  String.prefix d (String "@"%char r) = false.
Proof.
  destruct d as [| c d]; [congruence |]. intros _ [Hc _]. cbn.
  destruct (ascii_dec c "@"); [contradiction | reflexivity].
Qed.

(** Replacing a text that holds no at-sign and does not occur before the
    at-sign changes only what follows the at-sign. *)
Lemma replace_domain_only d fixed : forall l,
  d <> "" ->
  Forall_chars (fun c => c <> "@"%char) d ->
  ~ occurs d l ->
  replace (l ++ String "@"%char d) d fixed = l ++ String "@"%char fixed.
Proof.
  intros l Hne Hd. rewrite (replace_nonempty _ _ _ Hne).
  induction l as [| x l IH]; intros Hno.
  - cbn [append replace_from].
    rewrite (prefix_at_false d d Hne Hd). f_equal.
    now apply replace_from_self.
  - cbn [append replace_from].
    destruct (String.prefix d (String x (l ++ String "@"%char d))) eqn:Hp.
    + exfalso. apply Hno.
      destruct (prefix_before_at d (String x l) d Hd Hp) as [b Hb].
      exists "", b. exact Hb.
    + f_equal. apply IH. intros (a & b & ->). apply Hno.
      exists (String x a), b. reflexivity.
Qed.

(** X5.  When the domain part is a key of the typo table and its text does not
    occur in the local part, the message suggests the same local part with
    the corrected domain. *)
Theorem validate_email_suggests_corrected_domain s l d fixed :
  email_pattern_matches (lower (strip s)) = true ->
  local_part (lower (strip s)) = Some l ->
  domain_part (lower (strip s)) = Some d ->
  dict_get common_domains d = Some fixed ->
  ~ occurs d l ->
  validate_email s =
    Ok {| is_valid := false; value := l ++ String "@"%char d;
          error := Some ("Did you mean '" ++ (l ++ String "@"%char fixed)
                         ++ "'?") |}.
Proof.
  intros Hm Hl Hd Hf Hno.
  destruct (email_split _ Hm) as (l0 & d0 & He & Hsp & Hl0 & Hd0).
  unfold local_part in Hl. unfold domain_part in Hd. rewrite Hsp in Hl, Hd.
  cbn in Hl, Hd. injection Hl as ->. injection Hd as ->.
  assert (Hne : d <> "") by (intros ->; discriminate Hf).
  unfold validate_email.
  rewrite (matching_input_not_empty _ Hm), Hm. cbn [negb].
  unfold domain_part. rewrite Hsp. cbn [nth_error]. rewrite Hf, He.
  now rewrite (replace_domain_only d fixed l Hne Hd0 Hno).
Qed.

Lemma not_occurs_longer d l :
  (String.length l < String.length d)%nat -> ~ occurs d l.
Proof.
  intros Hlen (a & b & ->). rewrite !length_append in Hlen. lia.
Qed.

Lemma validate_email_suggests_corrected_domain_witness :
  validate_email " User@Gmial.com" =
    Ok {| is_valid := false; value := "user@gmial.com";
          error := Some "Did you mean 'user@gmail.com'?" |}.
Proof.
  apply (validate_email_suggests_corrected_domain
           " User@Gmial.com" "user" "gmial.com" "gmail.com");
    try reflexivity.
  apply not_occurs_longer. cbn. lia.
Defined.

(** X6.  [validate_num_results] accepts exactly the numbers from [min_val] to
    [max_val], so nothing when the bounds are crossed, and the value of
    the result is the decimal text of the number in every case. *)
Theorem validate_num_results_range v min_val max_val :
  (is_valid (validate_num_results v min_val max_val) = true <->
   min_val <= v <= max_val) /\
  value (validate_num_results v min_val max_val) = str_of_int v /\
  (is_valid (validate_num_results v min_val max_val) = true <->
   error (validate_num_results v min_val max_val) = None) /\
  (max_val < min_val ->
   is_valid (validate_num_results v min_val max_val) = false).
Proof.
  unfold validate_num_results. rewrite Z.gtb_ltb.
  destruct (Z.ltb_spec v min_val); destruct (Z.ltb_spec max_val v);
    cbn [is_valid value error]; repeat split; intros; try lia;
    try discriminate; try reflexivity.
Qed.

Lemma validate_num_results_range_witness :
  is_valid (validate_num_results 3 1 20) = true.
Proof.
  apply (proj1 (validate_num_results_range 3 1 20)). lia.
Defined.

End ValidatorsMore2.

(** ** Validators: topics *)

Module TopicMore.
Import PyStr Re ReFacts ReComplete Validators ValidatorsFacts StrFacts.

Lemma Forall_all_chars p s :
  Forall_chars (fun c => p c = true) s <-> all_chars p s = true.
Proof.
  induction s as [| c s IH]; cbn [Forall_chars all_chars]; [tauto |].
  rewrite andb_true_iff, IH. tauto.
Qed.

Lemma Lang_star_cls p s : Lang (Star (Cls p)) s <-> all_chars p s = true.
Proof.
  split.
  - intros H. apply Forall_all_chars.
    apply (Lang_chars _ _ _ H). cbn [classes_within]. auto.
  - induction s as [| c s IH]; cbn [all_chars]; [constructor |].
    intros H. apply andb_true_iff in H as [Hc Hs].
    change (String c s) with (String c "" ++ s).
    constructor; [now constructor | auto].
Qed.

Lemma Lang_plus_cls p s :
  Lang (Plus (Cls p)) s <-> s <> "" /\ all_chars p s = true.
Proof.
  unfold Plus. split.
  - intros H. inversion H as [| | ? ? h t Hh Ht | | | |]; subst.
    inversion Hh; subst. apply Lang_star_cls in Ht.
    cbn [append all_chars]. split; [discriminate |].
    now apply andb_true_iff.
  - intros [Hne H]. destruct s as [| c s]; [congruence |].
    cbn [all_chars] in H. apply andb_true_iff in H as [Hc Hs].
    change (String c s) with (String c "" ++ s).
    constructor; [now constructor | now apply Lang_star_cls].
Qed.

Lemma Lang_on_handler w :
  Lang (Cat (word lit_i "on")
          (Cat (Plus (Cls word_char))
               (Cat (Star (Cls isspace)) (lit "="%char)))) w <->
  exists h name sp,
    w = h ++ name ++ sp ++ "=" /\ lower h = "on" /\ name <> "" /\
    all_chars word_char name = true /\ all_chars isspace sp = true.
Proof.
  split.
  - intros H. inversion H as [| | ? ? h r1 Hh Hr1 | | | |]; subst.
    inversion Hr1 as [| | ? ? name r2 Hn Hr2 | | | |]; subst.
    inversion Hr2 as [| | ? ? sp e Hs He | | | |]; subst.
    apply Lang_lit in He. subst e.
    apply (proj1 (Lang_word_lit_i "on" h)) in Hh.
    apply Lang_plus_cls in Hn as [Hn1 Hn2].
    apply Lang_star_cls in Hs.
    exists h, name, sp. auto.
  - intros (h & name & sp & -> & Hh & Hn & Hw & Hs).
    constructor; [now apply (proj2 (Lang_word_lit_i "on" h)) |].
    constructor; [now apply Lang_plus_cls |].
    constructor; [now apply Lang_star_cls |].
    unfold lit. constructor. apply Ascii.eqb_refl.
Qed.

(** The loop over [dangerous_patterns] finds a match exactly when the
    text contains a dangerous piece. *)
Lemma dangerous_patterns_iff t :
  existsb (fun pattern => search pattern t) dangerous_patterns = true <->
  contains_dangerous t.
Proof.
  unfold dangerous_patterns, contains_dangerous, dangerous.
  cbn [existsb]. rewrite !orb_true_iff, !search_iff.
  split.
  - intros [(a & w & b & E & H) | [(a & w & b & E & H) | [(a & w & b & E & H) | H]]];
      try discriminate; exists a, w, b; (split; [exact E |]).
    + left. now apply Lang_word_lit_i.
    + right; left. now apply Lang_word_lit_i.
    + right; right. now apply Lang_on_handler.
  - intros (a & w & b & E & [H | [H | H]]).
    + left. exists a, w, b. split; [exact E | now apply Lang_word_lit_i].
    + right; left. exists a, w, b. split; [exact E | now apply Lang_word_lit_i].
    + right; right; left. exists a, w, b.
      split; [exact E | now apply Lang_on_handler].
Qed.



(** X8.  A topic of whitespace only is not reported as missing: its sanitised
    text is empty, and it fails any positive minimum length. *)
Theorem validate_topic_blank topic min_length max_length :
  topic <> "" -> all_chars isspace topic = true -> 0 < min_length ->
  validate_topic topic min_length max_length =
    {| is_valid := false; value := "";
       error := Some (min_length_error min_length) |}.
Proof.
  intros Hne Hb Hmin. apply String.eqb_neq in Hne.
  unfold validate_topic. rewrite Hne, (strip_blank _ Hb).
  cbn [sub_spaces]. change (len "") with 0.
  apply Z.ltb_lt in Hmin. rewrite Hmin. reflexivity.
Qed.

Lemma validate_topic_blank_witness :
  validate_topic "   " 5 500 =
    {| is_valid := false; value := "";
       error := Some "Topic must be at least 5 characters long" |}.
Proof.
  apply (validate_topic_blank "   " 5 500); [discriminate | reflexivity | lia].
Defined.

(** X9.  Validating the sanitised text of a topic gives the result of
    validating the topic, unless that text is empty. *)
Theorem validate_topic_idempotent topic min_length max_length :
  sanitize_topic topic <> "" ->
  validate_topic (sanitize_topic topic) min_length max_length =
    validate_topic topic min_length max_length.
Proof.
  intros Hne.
  assert (Ht : String.eqb topic "" = false).
  { apply String.eqb_neq. intros ->. now apply Hne. }
  apply String.eqb_neq in Hne.
  unfold validate_topic at 1 2. rewrite Ht, Hne.
  fold (sanitize_topic (sanitize_topic topic)). fold (sanitize_topic topic).
  now rewrite sanitize_idem.
Qed.

Lemma validate_topic_idempotent_witness :
  validate_topic (sanitize_topic "  AI   in    health  ") 5 500 =
    validate_topic "  AI   in    health  " 5 500.
Proof.
  apply validate_topic_idempotent. vm_compute. discriminate.
Defined.

End TopicMore.

(** ** Configuration and agents, continued *)

Module ConfigMore.
Import Config.

(** The check reports nothing exactly when the three flags of
    [validate_required_keys] are all set. *)
Lemma get_missing_keys_empty_iff s :
  get_missing_keys s = [] <->
  llm (validate_required_keys s) = true /\
  search (validate_required_keys s) = true /\
  email (validate_required_keys s) = true.
Proof.
  unfold get_missing_keys, validate_required_keys; cbn [llm search email].
  destruct (current_api_key s) as [k |], (serper_api_key s) as [sk |],
    (email_user s) as [u |], (email_pass s) as [p |], (llm_provider s);
    cbn [is_not_None negb andb py_not app];
    try destruct (String.eqb u ""); try destruct (String.eqb p "");
    cbn [app]; split; intros H; try discriminate H; try (repeat split; reflexivity);
    destruct H as (H1 & H2 & H3); discriminate.
Qed.

(** X11.  What the check returns is the list of reportable names with some left
    out: each name at most once, in the order of the tests, and never the
    key of the provider that is not selected. *)
Theorem get_missing_keys_subseq s :
  subseq (get_missing_keys s) (reportable_names s) = true /\
  NoDup (get_missing_keys s) /\
  (llm_provider s = gemini -> ~ In "OPENAI_API_KEY" (get_missing_keys s)) /\
  (llm_provider s = openai -> ~ In "GOOGLE_API_KEY" (get_missing_keys s)).
Proof.
  unfold get_missing_keys, validate_required_keys, reportable_names;
    cbn [llm search email].
  destruct (current_api_key s) as [k |], (serper_api_key s) as [sk |],
    (email_user s) as [u |], (email_pass s) as [p |], (llm_provider s);
    cbn [is_not_None negb andb py_not app];
    try destruct (String.eqb u ""); try destruct (String.eqb p "");
    cbn [app];
    (split; [reflexivity |]);
    (split; [repeat constructor; cbn; intuition discriminate |]);
    split; intros Hp; try discriminate Hp; cbn; intuition discriminate.
Qed.

Lemma get_missing_keys_subseq_witness :
  ~ In "OPENAI_API_KEY" (get_missing_keys blank_key_settings).
Proof.
  exact (proj1 (proj2 (proj2
           (get_missing_keys_subseq blank_key_settings))) eq_refl).
Defined.

End ConfigMore.

Module AgentsMore.
Import Config Agents.

(** X14.  Agents built one after the other share one model object: the second
    call constructs nothing, and both together construct at most one. *)
Theorem create_agent_shares_llm s1 s2 c1 c2 cls :
  let first := create_agent s1 c1 cls in
  let second := create_agent s2 c2 (snd first) in
  agent_llm (fst second) = agent_llm (fst first) /\
  snd second = snd first /\
  (constructed (snd second) <= S (constructed cls))%nat /\
  _llm_instance (snd second) = Some (agent_llm (fst first)).
Proof.
  unfold create_agent.
  destruct (get_llm s1 cls) as [l1 f1] eqn:E1. cbn [fst snd].
  assert (Hc : _llm_instance f1 = Some l1).
  { pose proof (AgentsFacts.get_llm_cached_after s1 cls) as H.
    now rewrite E1 in H. }
  assert (E2 : get_llm s2 f1 = (l1, f1)) by (unfold get_llm; now rewrite Hc).
  rewrite E2. cbn [fst snd agent_llm].
  repeat split; auto.
  unfold get_llm in E1. destruct (_llm_instance cls); injection E1 as <- <-;
    cbn; lia.
Qed.

(** X15.  Under validated settings the iteration budget a role asks for has no
    effect: two configurations that differ only in it give the same agent,
    whose budget is the configured cap. *)
Theorem create_agent_ignores_role_budget settings config budget cls :
  validated settings ->
  let other := {| cfg_role := cfg_role config; cfg_goal := cfg_goal config;
                  cfg_backstory := cfg_backstory config;
                  cfg_tools := cfg_tools config;
                  cfg_verbose := cfg_verbose config;
                  cfg_max_iter := budget;
                  cfg_allow_delegation := cfg_allow_delegation config |} in
  create_agent settings other cls = create_agent settings config cls /\
  max_iter (fst (create_agent settings config cls)) =
    max_agent_iterations settings.
Proof.
  intros (_ & Hi & _) other. unfold create_agent.
  destruct (get_llm settings cls) as [l f]. cbn [fst max_iter].
  unfold int_or.
  destruct (Z.eqb_spec (max_agent_iterations settings) 0); [lia |].
  split; reflexivity.
Qed.

Lemma create_agent_ignores_role_budget_witness :
  max_iter (fst (create_agent configured (researcher_config "AI" 3)
                   initial_factory)) = 5.
Proof.
  exact (proj2 (create_agent_ignores_role_budget configured
                  (researcher_config "AI" 3) 2 initial_factory
                  ConfigFacts.configured_validated)).
Defined.



End AgentsMore.

(** ** Workflow, continued *)

Module CrewServiceMore.
Import PyStr Config Agents CrewService CrewServiceFacts.

(** X17.  [get_task_outputs] lists the outputs that are set and not empty, in
    stage order: never an empty text, all three when all are there, and
    with the position of a stage lost as soon as an earlier one is
    missing. *)
Theorem get_task_outputs_truthy r :
  Forall (fun s => s <> "") (get_task_outputs r) /\
  (List.length (get_task_outputs r) <= 3)%nat /\
  (forall a b c,
     research_output r = Some a -> summary_output r = Some b ->
     email_output r = Some c -> a <> "" -> b <> "" -> c <> "" ->
     get_task_outputs r = [a; b; c]) /\
  (forall b,
     py_not (research_output r) = true -> summary_output r = Some b ->
     b <> "" -> hd_error (get_task_outputs r) = Some b).
Proof.
  unfold get_task_outputs.
  destruct (research_output r) as [a |], (summary_output r) as [b |],
    (email_output r) as [c |]; cbn [py_not];
    try destruct (String.eqb_spec a ""); try destruct (String.eqb_spec b "");
    try destruct (String.eqb_spec c ""); cbn [app];
    (split; [repeat constructor; assumption |]);
    (split; [cbn; lia |]);
    (split; [intros a' b' c' Ha Hb Hc; try discriminate;
             injection Ha as <-; injection Hb as <-; injection Hc as <-;
             intros; congruence |]);
    intros b' Hr Hb; try discriminate; injection Hb as <-; intros;
    try congruence; reflexivity.
Qed.

Lemma get_task_outputs_truthy_witness :
  get_task_outputs
    {| success := true; research_output := Some "R";
       summary_output := Some "S"; email_output := Some "E";
       error_message := None; execution_time := 1; timestamp := 2 |} =
    ["R"; "S"; "E"].
Proof.
  apply (proj1 (proj2 (proj2 (get_task_outputs_truthy _))) "R" "S" "E");
    try reflexivity; discriminate.
Defined.

Ltac failed :=
  cbn;
  match goal with
  | |- context [exn_is_Exception ?e] => destruct (exn_is_Exception e)
  end;
  cbn; intros ? ? Hrun; inversion Hrun; subst;
  right; cbn; repeat split; eauto.

Ltac ok_or_failed t := destruct t eqn:?; cbn; [| solve [failed]].
Ltac failed_or_ok t := destruct t eqn:?; cbn; [solve [failed] |].

Ltac builders E :=
  match goal with
  | |- context [create_researcher_agent (ext E) ?a ?b] =>
      ok_or_failed (create_researcher_agent (ext E) a b)
  end;
  match goal with
  | |- context [create_summarizer_agent (ext E) ?a] =>
      ok_or_failed (create_summarizer_agent (ext E) a)
  end;
  ok_or_failed (create_email_agent (ext E)).

Ltac task_builders E :=
  match goal with
  | |- context [create_research_task (ext E) ?a ?b ?c] =>
      ok_or_failed (create_research_task (ext E) a b c)
  end;
  match goal with
  | |- context [create_summarization_task (ext E) ?a ?b ?c] =>
      ok_or_failed (create_summarization_task (ext E) a b c)
  end;
  match goal with
  | |- context [create_email_task (ext E) ?a ?b ?c ?d ?e] =>
      ok_or_failed (create_email_task (ext E) a b c d e)
  end.

Ltac crew_and_kickoff1 E :=
  match goal with
  | |- context [new_Crew (ext E) ?a] => ok_or_failed (new_Crew (ext E) a)
  end.

Ltac crew_and_kickoff2 E :=
  match goal with
  | |- context [kickoff (ext E) ?a] => ok_or_failed (kickoff (ext E) a)
  end.

(** X18.  Every record the workflow returns is either a success without an error
    message, or a failure with an error message and no stage output at
    all, whatever had been produced before the exception. *)
Theorem workflow_record_invariant E topic recipient_email report_format
      num_results w :
  forall r w',
    execute_research_workflow E topic recipient_email report_format
      num_results w = (Ok r, w') ->
    (success r = true /\ error_message r = None) \/
    (success r = false /\ (exists m, error_message r = Some m) /\
     research_output r = None /\ summary_output r = None /\
     email_output r = None /\ get_task_outputs r = []).
Proof.
  unfold execute_research_workflow. run_step.
  destruct (progress_callback E) as [cb |]; cbn.
  - failed_or_ok (cb 10 "Assembling AI research team...").
    builders E.
    failed_or_ok (cb 25 "Configuring research tasks...").
    task_builders E.
    failed_or_ok (cb 40 "Initiating research process...").
    crew_and_kickoff1 E.
    failed_or_ok (cb 50 "AI agents working on research...").
    crew_and_kickoff2 E.
    failed_or_ok (cb 90 "Finalizing results...").
    match goal with
    | |- context [extract_outputs ?x] =>
        destruct (extract_outputs x) as [[ro so] eo]
    end; cbn.
    failed_or_ok (cb 100 "Research complete!").
    intros r w' Hrun. inversion Hrun; subst. left. split; reflexivity.
  - builders E. task_builders E. crew_and_kickoff1 E. crew_and_kickoff2 E.
    match goal with
    | |- context [extract_outputs ?x] =>
        destruct (extract_outputs x) as [[ro so] eo]
    end; cbn.
    intros r w' Hrun. inversion Hrun; subst. left. split; reflexivity.
Qed.

Lemma workflow_record_invariant_witness :
  success (failure_record "" 2000 3000) = false /\
  get_task_outputs (failure_record "" 2000 3000) = [].
Proof.
  destruct (workflow_record_invariant
              (scripted_env (fun k => 1000 * Z.of_nat k) None
                 (Raise bare_Exception))
              "Electric vehicle battery trends 2025" "analyst@example.com"
              "Executive Brief" 3 initial_world
              (failure_record "" 2000 3000)
              {| clock_reads := 4; logger_start_time := 1000;
                 log := [log_start "Starting research workflow for: Electric vehicle battery trends 2025...";
                         log_progress "Assembling AI research team..." (Some 10);
                         log_progress "Configuring research tasks..." (Some 25);
                         log_progress "Initiating research process..." (Some 40);
                         log_progress "AI agents working on research..." (Some 50);
                         log_error "Workflow failed" bare_Exception];
                 progress_calls := [] |} eq_refl)
    as [[H _] | (H & _ & _ & _ & _ & Ho)].
  - discriminate H.
  - split; [exact H | exact Ho].
Defined.

(** X19.  When the engine raises, the callback has been called at the first four
    milestones only: it never hears of 90 or 100. *)
Theorem workflow_failure_calls E topic recipient_email report_format
      num_results c e cb w :
  progress_callback E = Some cb ->
  callback_returns E ->
  crew_of E topic recipient_email report_format num_results c ->
  kickoff (ext E) c = Raise e ->
  progress_calls
    (snd (execute_research_workflow E topic recipient_email report_format
            num_results w)) =
    (progress_calls w
     ++ [(10, "Assembling AI research team...");
         (25, "Configuring research tasks...");
         (40, "Initiating research process...");
         (50, "AI agents working on research...")])%list.
Proof.
  intros Hsome Hcb Hc Hk.
  rewrite (workflow_failure _ _ _ _ _ _ _ w Hcb Hc Hk), Hsome.
  destruct (exn_is_Exception e); reflexivity.
Qed.

Lemma workflow_failure_calls_witness :
  map fst
    (progress_calls
       (snd (execute_research_workflow
               (scripted_env (fun k => 1000 * Z.of_nat k)
                  (Some (fun _ _ => None)) (Raise bare_Exception))
               "Electric vehicle battery trends 2025" "analyst@example.com"
               "Executive Brief" 3 initial_world))) = [10; 25; 40; 50].
Proof.
  destruct (scripted_crew (fun k => 1000 * Z.of_nat k)
              (Some (fun _ _ => None)) (Raise bare_Exception)
              "Electric vehicle battery trends 2025" "analyst@example.com"
              "Executive Brief" 3) as [c Hc].
  rewrite (workflow_failure_calls
             (scripted_env (fun k => 1000 * Z.of_nat k)
                (Some (fun _ _ => None)) (Raise bare_Exception))
             _ _ _ _ c bare_Exception (fun _ _ => None) initial_world
             eq_refl (fun _ _ => eq_refl) Hc eq_refl).
  reflexivity.
Defined.

(** X20.  A callback that raises at the last milestone turns a run whose engine
    has returned into a failure record: the outputs of the engine are
    dropped, and the message is that of the callback's exception. *)
Theorem workflow_last_callback_raises E topic recipient_email report_format
      num_results c result cb e w :
  progress_callback E = Some cb ->
  (forall p m, p <> 100 -> cb p m = None) ->
  cb 100 "Research complete!" = Some e ->
  exn_is_Exception e = true ->
  crew_of E topic recipient_email report_format num_results c ->
  kickoff (ext E) c = Ok result ->
  fst (execute_research_workflow E topic recipient_email report_format
         num_results w) =
    Ok (failure_record (exn_str e)
          (now_at E (clock_reads w + 3) - now_at E (clock_reads w))
          (now_at E (clock_reads w + 4))) /\
  progress_calls
    (snd (execute_research_workflow E topic recipient_email report_format
            num_results w)) = (progress_calls w ++ milestones)%list.
Proof.
  intros Hsome Hq Hlast He
    (r & sm & em & rt & st & et & H1 & H2 & H3 & H4 & H5 & H6 & -> & H7) Hk.
  unfold execute_research_workflow, failure_record. run_step.
  rewrite Hsome.
  rewrite (Hq 10), (Hq 25), (Hq 40), (Hq 50), (Hq 90) by lia.
  cbn. rewrite H1, H2, H3. cbn. rewrite H4, H5, H6. cbn.
  rewrite H7. cbn. rewrite Hk. cbn.
  destruct (extract_outputs result) as [[ro so] eo]. cbn.
  rewrite Hlast. cbn. rewrite He. cbn.
  replace (clock_reads w + 3)%nat with (S (S (S (clock_reads w)))) by lia.
  replace (clock_reads w + 4)%nat with (S (S (S (S (clock_reads w))))) by lia.
  split; [reflexivity |].
  unfold milestones. rewrite <- !app_assoc. reflexivity.
Qed.

Lemma workflow_last_callback_raises_witness :
  fst (execute_research_workflow
         (scripted_env (fun k => 1000 * Z.of_nat k)
            (Some (fun p _ =>
                     if p =? 100
                     then Some {| exn_is_Exception := true;
                                  exn_str := "widget gone" |}
                     else None))
            (Ok {| tasks_output :=
                     Some [ {| raw := "R" |}; {| raw := "S" |};
                            {| raw := "E" |} ] |}))
         "Electric vehicle battery trends 2025" "analyst@example.com"
         "Executive Brief" 3 initial_world) =
    Ok (failure_record "widget gone" 3000 4000).
Proof.
  destruct (scripted_crew (fun k => 1000 * Z.of_nat k)
              (Some (fun p _ =>
                       if p =? 100
                       then Some {| exn_is_Exception := true;
                                    exn_str := "widget gone" |}
                       else None))
              (Ok {| tasks_output :=
                       Some [ {| raw := "R" |}; {| raw := "S" |};
                              {| raw := "E" |} ] |})
              "Electric vehicle battery trends 2025" "analyst@example.com"
              "Executive Brief" 3) as [c Hc].
  refine (proj1 (workflow_last_callback_raises
                   (scripted_env (fun k => 1000 * Z.of_nat k)
                      (Some (fun p _ =>
                               if p =? 100
                               then Some {| exn_is_Exception := true;
                                            exn_str := "widget gone" |}
                               else None))
                      (Ok {| tasks_output :=
                               Some [ {| raw := "R" |}; {| raw := "S" |};
                                      {| raw := "E" |} ] |}))
                   _ _ _ _ c _ _
                   {| exn_is_Exception := true; exn_str := "widget gone" |}
                   initial_world eq_refl _ eq_refl eq_refl Hc eq_refl)).
  intros p m Hp. destruct (Z.eqb_spec p 100); [contradiction | reflexivity].
Defined.

End CrewServiceMore.

(** ** Download buttons, continued *)

Module ComponentsMore.
Import PyStr Validators CrewService Components ComponentsFacts StrFacts.

Lemma map_safe_fixed t :
  all_chars allowed t = true -> map_chars safe_char t = t.
Proof.
  induction t as [| c t IH]; cbn [all_chars map_chars]; [reflexivity |].
  intros H. apply andb_true_iff in H as [Hc Ht].
  rewrite (IH Ht). unfold safe_char. now rewrite Hc.
Qed.

Lemma take_fixed n : forall t, (String.length t <= n)%nat -> take n t = t.
Proof.
  induction n as [| n IH]; intros [| c t]; cbn [take String.length]; intros H;
    try reflexivity; try lia.
  rewrite IH by lia. reflexivity.
Qed.

(** X21.  A topic that is already made of allowed characters, at most 50 long
    and trimmed is its own file-name part; so sanitising twice changes
    nothing more. *)
Theorem safe_topic_idempotent topic :
  safe_topic (safe_topic topic) = safe_topic topic /\
  (all_chars allowed topic = true -> (String.length topic <= 50)%nat ->
   starts_with_space topic = false -> ends_with_space topic = false ->
   safe_topic topic = topic).
Proof.
  assert (Hfix : forall t, all_chars allowed t = true ->
                 (String.length t <= 50)%nat ->
                 starts_with_space t = false -> ends_with_space t = false ->
                 safe_topic t = t).
  { intros t Ha Hl Hs He. unfold safe_topic.
    rewrite (map_safe_fixed _ Ha), (take_fixed 50 _ Hl).
    now apply strip_fixed. }
  split; [| apply Hfix].
  destruct (safe_topic_shape topic) as (Hl & Ha & Hs & He).
  now apply Hfix.
Qed.

Lemma safe_topic_idempotent_witness :
  safe_topic "Electric vehicle battery trends 2025" =
    "Electric vehicle battery trends 2025".
Proof.
  apply (proj2 (safe_topic_idempotent "Electric vehicle battery trends 2025"));
    try reflexivity.
  cbn. lia.
Defined.

Lemma all_chars_app p s t :
  all_chars p (s ++ t) = (all_chars p s && all_chars p t)%bool.
Proof.
  induction s as [| c s IH]; cbn [append all_chars]; [reflexivity |].
  now rewrite IH, andb_assoc.
Qed.

Lemma all_chars_weaken (p q : ascii -> bool) s :
  (forall c, p c = true -> q c = true) ->
  all_chars p s = true -> all_chars q s = true.
Proof.
  intros Hpq. induction s as [| c s IH]; cbn [all_chars]; [auto |].
  intros H. apply andb_true_iff in H as [Hc Hs].
  now rewrite (Hpq _ Hc), IH.
Qed.

(** X22.  Whatever the topic, every file name offered for download is made of
    alphanumerics, spaces, hyphens, underscores and dots only (so it holds
    no path separator) and is at most 69 characters long. *)
Theorem download_names_safe result topic f :
  In f (file_names (render_download_buttons result topic)) ->
  all_chars (fun c => allowed c || Ascii.eqb c "."%char) f = true /\
  all_chars (fun c => negb (Ascii.eqb c "/"%char)
                      && negb (Ascii.eqb c "\"%char)) f = true /\
  (String.length f <= 69)%nat.
Proof.
  intros Hin.
  destruct (safe_topic_shape topic) as (Hl & Ha & _ & _).
  assert (Hq : all_chars (fun c => allowed c || Ascii.eqb c "."%char)
                 (safe_topic topic) = true).
  { apply (all_chars_weaken allowed); [| exact Ha].
    intros c Hc. now rewrite Hc. }
  assert (Hcases : f = "research_report_" ++ safe_topic topic ++ ".md" \/
                   f = "summary_" ++ safe_topic topic ++ ".md").
  { unfold render_download_buttons in Hin.
    destruct (success result); cbn [negb] in Hin; [| contradiction].
    cbn [app file_names] in Hin.
    destruct (truthy (research_output result)),
      (truthy (summary_output result)); cbn in Hin; intuition. }
  assert (Hsafe : all_chars (fun c => allowed c || Ascii.eqb c "."%char) f
                  = true).
  { destruct Hcases as [-> | ->]; rewrite !all_chars_app, Hq; reflexivity. }
  split; [exact Hsafe |]. split.
  - apply (all_chars_weaken _ _ _) with (2 := Hsafe).
    intros c Hc.
    destruct (Ascii.eqb_spec c "/"%char) as [-> | _]; [discriminate Hc |].
    destruct (Ascii.eqb_spec c "\"%char) as [-> | _]; [discriminate Hc |].
    reflexivity.
  - destruct Hcases as [-> | ->]; rewrite !length_append;
      cbn [String.length]; lia.
Qed.

Lemma download_names_safe_witness :
  all_chars (fun c => negb (Ascii.eqb c "/"%char)
                      && negb (Ascii.eqb c "\"%char))
    "research_report_______etc_passwd.md" = true.
Proof.
  apply (download_names_safe finished_run "../../etc/passwd"
           "research_report_______etc_passwd.md").
  left. reflexivity.
Defined.

End ComponentsMore.

(** ** Application entry points *)

Module MainMore.
Import PyStr Validators ValidatorsFacts Config CrewService Components Main.
Import StrFacts TopicMore.

Lemma validate_email_cases s :
  (exists r, validate_email s = Ok r /\ is_valid r = false /\
             exists m, error r = Some m /\
                       (s <> "" -> m <> "Email address is required")) \/
  (validate_email s =
     Ok {| is_valid := true; value := lower (strip s); error := None |} /\
   email_pattern_matches (lower (strip s)) = true).
Proof.
  unfold validate_email.
  destruct (String.eqb_spec s "") as [-> | Hne].
  { left. eexists. repeat split. eexists. split; [reflexivity | congruence]. }
  destruct (email_pattern_matches (lower (strip s))) eqn:Hm; cbn [negb].
  2:{ left. eexists. repeat split. eexists. split; [reflexivity |].
      intros _. discriminate. }
  destruct (email_shape _ Hm) as (l & d & _ & _ & _ & Hd). rewrite Hd.
  destruct (dict_get common_domains d).
  - left. eexists. repeat split. eexists. split; [reflexivity |].
    intros _. cbn. discriminate.
  - right. split; reflexivity.
Qed.

Lemma validate_topic_cases topic :
  (is_valid (validate_topic topic 5 500) = false /\
   exists m, error (validate_topic topic 5 500) = Some m /\
             (topic <> "" -> m <> "Research topic is required")) \/
  (validate_topic topic 5 500 =
     {| is_valid := true; value := sanitize_topic topic; error := None |} /\
   5 <= len (sanitize_topic topic) <= 500 /\
   ~ contains_dangerous (sanitize_topic topic)).
Proof.
  unfold validate_topic.
  destruct (String.eqb_spec topic "") as [-> | Hne].
  { left. split; [reflexivity |]. eexists. split; [reflexivity | congruence]. }
  fold (sanitize_topic topic). set (t := sanitize_topic topic).
  destruct (Z.ltb_spec (len t) 5).
  { left. split; [reflexivity |]. eexists. split; [reflexivity |].
    intros _. cbn. discriminate. }
  rewrite Z.gtb_ltb. destruct (Z.ltb_spec 500 (len t)).
  { left. split; [reflexivity |]. eexists. split; [reflexivity |].
    intros _. cbn. discriminate. }
  destruct (existsb _ dangerous_patterns) eqn:Hd.
  { left. split; [reflexivity |]. eexists. split; [reflexivity |].
    intros _. discriminate. }
  right. split; [reflexivity |]. split; [lia |].
  intros Hc. apply dangerous_patterns_iff in Hc. congruence.
Qed.

(** X23.  [run_research] either shows one error and does nothing else (no clock
    read, no log, no callback, session as before), or starts the workflow
    on the trimmed, lowercased address, which matches the pattern, and on
    the sanitised topic, which is 5 to 500 characters long and free of
    dangerous pieces; the session then keeps the topic as typed. *)
Theorem run_research_gate E config ss w :
  (exists m, run_research E config ss w = (Ok ([st_error m], ss), w)) \/
  (email_pattern_matches (lower (strip (panel_recipient_email config))) = true /\
   normalized (sanitize_topic (panel_topic config)) /\
   5 <= len (sanitize_topic (panel_topic config)) <= 500 /\
   ~ contains_dangerous (sanitize_topic (panel_topic config)) /\
   run_research E config ss w = launch E config w).
Proof.
  unfold run_research, launch.
  destruct (validate_email_cases (panel_recipient_email config))
    as [(r & Hr & Hv & _) | [Hr Hm]].
  - left. unfold bind at 1, call. rewrite Hr, Hv. cbn [negb].
    eexists. reflexivity.
  - destruct (validate_topic_cases (panel_topic config))
      as [(Hv & _) | (Ht & Hlen & Hd)].
    + left. unfold bind at 1, call. rewrite Hr. cbn [is_valid negb].
      rewrite Hv. cbn [negb]. eexists. reflexivity.
    + right. repeat split; auto; try lia.
      * apply sanitize_topic_normalized.
      * apply sanitize_topic_normalized.
      * apply sanitize_topic_normalized.
      * apply sanitize_topic_normalized.
      * unfold bind at 1, call. rewrite Hr. cbn [is_valid negb value].
        rewrite Ht. reflexivity.
Qed.

(** X24.  Reached from the run button, the validators never answer that a field
    is required: an empty field is caught before, with its own message. *)
Theorem on_run_button_never_required E config ss w calls ss' w' :
  on_run_button E config ss w = (Ok (calls, ss'), w') ->
  ~ In (st_error "Invalid email: Email address is required") calls /\
  ~ In (st_error "Invalid topic: Research topic is required") calls.
Proof.
  unfold on_run_button.
  destruct (String.eqb_spec (panel_topic config) "") as [Ht | Ht];
    cbn [orb].
  { intros [= <- _ _]. cbn. intuition discriminate. }
  destruct (String.eqb_spec (panel_recipient_email config) "") as [He | He].
  { intros [= <- _ _]. cbn. intuition discriminate. }
  unfold run_research.
  destruct (validate_email_cases (panel_recipient_email config))
    as [(r & Hr & Hv & m & Hm & Hreq) | [Hr Hmatch]].
  - unfold bind at 1, call. rewrite Hr, Hv, Hm. cbn [negb fmt_optional].
    intros [= <- _ _]. cbn [In]. specialize (Hreq He).
    split; intros [H | []]; injection H as H.
    + apply Hreq. exact H.
    + discriminate H.
  - unfold bind at 1, call. rewrite Hr. cbn [is_valid negb].
    destruct (validate_topic_cases (panel_topic config))
      as [(Hv & m & Hm & Hreq) | (Hok & _)].
    + rewrite Hv, Hm. cbn [negb fmt_optional].
      intros [= <- _ _]. cbn [In]. specialize (Hreq Ht).
      split; intros [H | []]; injection H as H.
      * discriminate H.
      * apply Hreq. exact H.
    + rewrite Hok. cbn [is_valid negb value].
      unfold bind. destruct (CrewService_init E w) as [[u | e] w1];
        [| discriminate].
      destruct (execute_research_workflow _ _ _ _ _ w1) as [[res | e] w2];
        [| discriminate].
      unfold ret. intros [= <- _ _]. cbn. intuition discriminate.
Qed.

(** X12.  The configuration check lets the application start exactly when the
    three flags of [validate_configuration] are set; otherwise it shows
    the warning, one code block per missing name in the order of
    [get_missing_keys], and the hint. *)
Theorem check_configuration_passes E w :
  exists calls ok w',
    check_configuration E w = (Ok (calls, ok), w') /\
    (ok = true <->
     llm (validate_configuration E) = true /\
     search (validate_configuration E) = true /\
     email (validate_configuration E) = true) /\
    (ok = true -> calls = []) /\
    (ok = false ->
     exists head hint,
       calls = ([st_markdown head]
                ++ map st_code (get_missing_keys (settings E))
                ++ [st_info hint])%list).
Proof.
  unfold check_configuration, validate_configuration, get_missing_configuration.
  unfold bind, CrewService_init, datetime_now, set_logger_start_time, ret.
  cbn [fst snd].
  destruct (get_missing_keys (settings E)) as [| k ks] eqn:Hk.
  - do 3 eexists. split; [reflexivity |].
    split; [| split; [reflexivity | discriminate]].
    split; [intros _ | reflexivity].
    now apply ConfigMore.get_missing_keys_empty_iff.
  - do 3 eexists. split; [reflexivity |].
    split; [| split; [discriminate |]].
    + split; [discriminate |]. intros H.
      apply ConfigMore.get_missing_keys_empty_iff in H. congruence.
    + intros _. unfold render_configuration_warning.
      do 2 eexists. reflexivity.
Qed.

Lemma on_run_button_never_required_witness :
  ~ In (st_error "Invalid email: Email address is required")
       [st_error "Invalid email: Invalid email format. Please enter a valid email address."].
Proof.
  exact (proj1 (on_run_button_never_required
                  (scripted_env (fun k => 1000 * Z.of_nat k) None
                     (Raise bare_Exception))
                  {| panel_topic := "Electric vehicle battery trends 2025";
                     panel_recipient_email := "nope";
                     panel_num_results := 3;
                     panel_report_format := "Executive Brief" |}
                  {| session_result := None; session_topic := None |}
                  initial_world _
                  {| session_result := None; session_topic := None |}
                  initial_world eq_refl)).
Defined.

Lemma check_configuration_passes_witness :
  exists calls ok w',
    check_configuration
      (scripted_env (fun k => 1000 * Z.of_nat k) None (Raise bare_Exception))
      initial_world = (Ok (calls, ok), w') /\
    (ok = true -> calls = []).
Proof.
  destruct (check_configuration_passes
              (scripted_env (fun k => 1000 * Z.of_nat k) None
                 (Raise bare_Exception)) initial_world)
    as (calls & ok & w' & H & _ & H2 & _).
  exists calls, ok, w'. split; assumption.
Defined.

End MainMore.

(** ** Task builders *)

Module TasksMore.
Import PyStr ReFacts Agents CrewService Tasks.

Lemma rstrip_app a b :
  rstrip b <> "" -> rstrip (a ++ b) = a ++ rstrip b.
Proof.
  intros Hb. induction a as [| c a IH]; cbn [append rstrip]; [reflexivity |].
  rewrite IH. destruct (a ++ rstrip b) eqn:E; [| reflexivity].
  destruct a; cbn in E; [contradiction | discriminate].
Qed.

Lemma rstrip_app_nonempty a b : rstrip b <> "" -> rstrip (a ++ b) <> "".
Proof.
  intros Hb. rewrite (rstrip_app _ _ Hb).
  destruct a; cbn; [exact Hb | discriminate].
Qed.

Lemma prefix_app a b : String.prefix a (a ++ b) = true.
Proof.
  induction a as [| c a IH]; cbn; [destruct b; reflexivity |].
  destruct (ascii_dec c c); [exact IH | contradiction].
Qed.

Lemma prefix_app_app a b c : String.prefix (a ++ b) (a ++ b ++ c) = true.
Proof. rewrite <- append_assoc. apply prefix_app. Qed.

Lemma lstrip_app p x : lstrip p <> "" -> lstrip (p ++ x) = lstrip p ++ x.
Proof.
  induction p as [| c p IH]; cbn [append lstrip]; [congruence |].
  destruct (isspace c); [exact IH | reflexivity].
Qed.

Ltac rstrip_nonempty :=
  repeat apply rstrip_app_nonempty; vm_compute; discriminate.

(** Trims a template: pieces joined by [++], the first and the last of
    them literals. *)
Ltac trim_template :=
  unfold strip;
  rewrite lstrip_app by (vm_compute; discriminate);
  match goal with
  | |- context [lstrip ?p ++ _] =>
      let v := eval vm_compute in (lstrip p) in change (lstrip p) with v
  end;
  repeat (rewrite rstrip_app by rstrip_nonempty);
  match goal with
  | |- context [rstrip ?p] =>
      let v := eval vm_compute in (rstrip p) in change (rstrip p) with v
  end.

(** X25.  The email task names the recipient at the start of its description
    and in its expected output, and asks for the subject line in the
    literal format, with topic and report format as given: trimming the
    template touches only its outer line breaks. *)
Theorem create_email_task_subject a recipient_email topic report_format st :
  String.prefix
    ("Send a professional email with the research report to: "
     ++ recipient_email)
    (description (create_email_task a recipient_email topic report_format st))
    = true /\
  (exists pre post,
     description (create_email_task a recipient_email topic report_format st)
     = pre ++ subject_line topic report_format ++ post) /\
  (exists pre post,
     expected_output
       (create_email_task a recipient_email topic report_format st)
     = pre ++ recipient_email ++ post) /\
  agent (create_email_task a recipient_email topic report_format st) = a /\
  context (create_email_task a recipient_email topic report_format st) = [st].
Proof.
  unfold create_email_task.
  cbn [description expected_output agent context].
  split; [| split; [| split; [| split; reflexivity]]].
  - trim_template. apply prefix_app_app.
  - trim_template. unfold subject_line.
    eexists ("Send a professional email with the research report to: "
             ++ recipient_email ++ "

Email Requirements:
1. "). eexists.
    rewrite !append_assoc. reflexivity.
  - trim_template. do 2 eexists. reflexivity.
Qed.


End TasksMore.

(** ** Environment set-up *)

Module EnvironMore.
Import PyStr Config.

Lemma environ_get_set_same env k v : dict_get (environ_set env k v) k = Some v.
Proof.
  induction env as [| [k' v'] env IH]; cbn [environ_set dict_get].
  - now rewrite String.eqb_refl.
  - destruct (String.eqb k k') eqn:E; cbn [dict_get]; rewrite ?E; auto.
    now rewrite String.eqb_refl.
Qed.

Lemma environ_get_set_other env k v k0 :
  k0 <> k -> dict_get (environ_set env k v) k0 = dict_get env k0.
Proof.
  intros Hne. apply String.eqb_neq in Hne.
  induction env as [| [k' v'] env IH]; cbn [environ_set dict_get].
  - now rewrite Hne.
  - destruct (String.eqb_spec k k') as [<- | Hk]; cbn [dict_get].
    + now rewrite Hne.
    + now rewrite IH.
Qed.

Lemma export_get_same env k x :
  dict_get (export_if_set env k x) k = exported x (dict_get env k).
Proof.
  unfold export_if_set, exported. destruct x as [v |]; [| reflexivity].
  destruct (String.eqb v ""); [reflexivity | apply environ_get_set_same].
Qed.

Lemma export_get_other env k x k0 :
  k0 <> k -> dict_get (export_if_set env k x) k0 = dict_get env k0.
Proof.
  intros Hne. unfold export_if_set. destruct x as [v |]; [| reflexivity].
  destruct (String.eqb v ""); [reflexivity | now apply environ_get_set_other].
Qed.

Ltac other := first [ rewrite export_get_other by (assumption || discriminate)
                    | rewrite environ_get_set_other by (assumption || discriminate) ].

(** X13.  After the set-up the four CrewAI variables hold their fixed values;
    each key variable holds its setting when that is set and not empty and
    otherwise keeps what it held before; no other variable changes. *)
Theorem setup_crewai_environment_effect settings env :
  let after := setup_crewai_environment settings env in
  dict_get after "CREWAI_EMBEDDING_PROVIDER" = Some "local" /\
  dict_get after "CREWAI_EMBEDDING_MODEL" =
    Some "sentence-transformers/all-MiniLM-L6-v2" /\
  dict_get after "CHROMA_OPENAI_API_KEY" = Some "fake-key" /\
  dict_get after "CREWAI_STORAGE_DISABLED" = Some "true" /\
  dict_get after "GOOGLE_API_KEY" =
    exported (google_api_key settings) (dict_get env "GOOGLE_API_KEY") /\
  dict_get after "OPENAI_API_KEY" =
    exported (openai_api_key settings) (dict_get env "OPENAI_API_KEY") /\
  dict_get after "SERPER_API_KEY" =
    exported (serper_api_key settings) (dict_get env "SERPER_API_KEY") /\
  (forall k,
     ~ In k ["CREWAI_EMBEDDING_PROVIDER"; "CREWAI_EMBEDDING_MODEL";
             "CHROMA_OPENAI_API_KEY"; "CREWAI_STORAGE_DISABLED";
             "GOOGLE_API_KEY"; "OPENAI_API_KEY"; "SERPER_API_KEY"] ->
     dict_get after k = dict_get env k).
Proof.
  cbv zeta. unfold setup_crewai_environment.
  repeat split.
  - repeat other. apply environ_get_set_same.
  - repeat other. apply environ_get_set_same.
  - repeat other. apply environ_get_set_same.
  - repeat other. apply environ_get_set_same.
  - repeat other. rewrite export_get_same. repeat other. reflexivity.
  - repeat other. rewrite export_get_same. repeat other. reflexivity.
  - rewrite export_get_same. repeat other. reflexivity.
  - intros k Hk. cbn [In] in Hk.
    assert (H1 : k <> "CREWAI_EMBEDDING_PROVIDER") by intuition.
    assert (H2 : k <> "CREWAI_EMBEDDING_MODEL") by intuition.
    assert (H3 : k <> "CHROMA_OPENAI_API_KEY") by intuition.
    assert (H4 : k <> "CREWAI_STORAGE_DISABLED") by intuition.
    assert (H5 : k <> "GOOGLE_API_KEY") by intuition.
    assert (H6 : k <> "OPENAI_API_KEY") by intuition.
    assert (H7 : k <> "SERPER_API_KEY") by intuition.
    repeat other. reflexivity.
Qed.

Lemma setup_crewai_environment_effect_witness :
  dict_get (setup_crewai_environment blank_key_settings
              [("GOOGLE_API_KEY", "old"); ("HOME", "/root")]) "HOME"
    = Some "/root".
Proof.
  apply (proj2 (proj2 (proj2 (proj2 (proj2 (proj2 (proj2
           (setup_crewai_environment_effect blank_key_settings
              [("GOOGLE_API_KEY", "old"); ("HOME", "/root")])))))))).
  cbn. intuition discriminate.
Defined.

End EnvironMore.

(** ** Validators: what callers may rely on *)

Module ValidatorsContract.
Import PyStr Validators ValidatorsFacts StrFacts TopicMore.

(** X1.  [validate_email] returns a result for every input: the index into the
    split address never fails.  The value of the result is the trimmed,
    lowercased input (the empty string for an empty input), and the result
    carries an error message exactly when it is not valid. *)
Theorem validate_email_total s :
  exists r,
    validate_email s = Ok r /\
    value r = (if String.eqb s "" then "" else lower (strip s)) /\
    (is_valid r = true <-> error r = None).
Proof.
  unfold validate_email.
  destruct (String.eqb s "").
  { eexists. split; [reflexivity |]. cbn. intuition discriminate. }
  destruct (email_pattern_matches (lower (strip s))) eqn:Hm; cbn [negb].
  2:{ eexists. split; [reflexivity |]. cbn. intuition discriminate. }
  destruct (email_shape _ Hm) as (l & d & _ & _ & _ & Hd). rewrite Hd.
  destruct (dict_get common_domains d); eexists;
    (split; [reflexivity |]); cbn [value is_valid error];
    intuition discriminate.
Qed.

(** X10.  What a caller may rely on when [validate_topic] accepts: the input was
    not empty, the value is its sanitised text, trimmed with single
    spaces, of a length within the two bounds and free of dangerous
    pieces, and there is no error message. *)
Theorem validate_topic_accepts_only topic min_length max_length :
  is_valid (validate_topic topic min_length max_length) = true ->
  topic <> "" /\
  value (validate_topic topic min_length max_length) = sanitize_topic topic /\
  normalized (value (validate_topic topic min_length max_length)) /\
  min_length <= len (value (validate_topic topic min_length max_length))
    <= max_length /\
  ~ contains_dangerous (value (validate_topic topic min_length max_length)) /\
  error (validate_topic topic min_length max_length) = None.
Proof.
  unfold validate_topic.
  destruct (String.eqb_spec topic "") as [-> | Hne]; [discriminate |].
  fold (sanitize_topic topic). set (t := sanitize_topic topic).
  destruct (Z.ltb_spec (len t) min_length); [discriminate |].
  rewrite Z.gtb_ltb.
  destruct (Z.ltb_spec max_length (len t)); [discriminate |].
  destruct (existsb _ dangerous_patterns) eqn:Hd; [discriminate |].
  intros _. cbn [value error].
  split; [exact Hne |]. split; [reflexivity |].
  split; [apply sanitize_topic_normalized |].
  split; [lia |]. split; [| reflexivity].
  intros Hc. apply dangerous_patterns_iff in Hc. congruence.
Qed.

Lemma validate_topic_accepts_only_witness :
  value (validate_topic "  Electric   vehicle battery trends 2025 " 5 500)
    = sanitize_topic "  Electric   vehicle battery trends 2025 ".
Proof.
  exact (proj1 (proj2 (validate_topic_accepts_only
                         "  Electric   vehicle battery trends 2025 " 5 500
                         eq_refl))).
Defined.

End ValidatorsContract.
